(** * scvi-tools core: batch sampling, data loading, loss container, forward pass

    A shallow embedding of
      - [scvi/core/data_loaders/scvi_data_loader.py]
        ([BatchSampler], [ScviDataLoader]) and
      - [scvi/compose/_base_module.py]
        ([SCVILoss], [AbstractVAE], [_get_dict_if_none]),
    followed by the properties proved about them.

    Python integers are [Z], Python lists and one-dimensional numpy arrays are
    [list], dictionaries used as maps are [gmap string _] (association lists
    where the iteration order is observable), exceptions are values of [exn]
    carried by the [result] monad, and Python floats are IEEE-754 binary64
    values ([SpecFloat.spec_float] at precision 53). *)

From stdpp Require Import gmap strings list fin_maps.
From Stdlib Require SpecFloat.

Set Default Proof Using "Type".
Local Open Scope Z_scope.

(* ===================================================================== *)
(** * Part I: definitions                                                 *)
(* ===================================================================== *)

(** ** The fragment of the Python runtime the two modules rely on *)

Module Py.

(** The exceptions that the modelled code, or the builtins it calls, raise. *)
Inductive exn :=
| ValueError (msg : string)
| KeyError (key : string)
| TypeError (msg : string)
| IndexError (msg : string)
| ZeroDivisionError (msg : string).

#[global] Instance exn_eq_dec : EqDecision exn.
Proof. solve_decision. Defined.

(** A computation either returns a value or raises. *)
Inductive result (A : Type) :=
| Ok (a : A)
| Raise (e : exn).
Arguments Ok {A} a.
Arguments Raise {A} e.

#[global] Instance result_ret : MRet result := λ A a, Ok a.
#[global] Instance result_bind : MBind result := λ A B f m,
  match m with
  | Ok a => f a
  | Raise e => Raise e
  end.
#[global] Instance result_fmap : FMap result := λ A B f m,
  match m with
  | Ok a => Ok (f a)
  | Raise e => Raise e
  end.

Definition is_ok {A} (r : result A) : bool :=
  match r with Ok _ => true | Raise _ => false end.

(** [range(start, stop, step)]: the values [start + k*step], [k >= 0], that
    lie before [stop] in the direction of [step]; a zero step raises.  The
    loops below produce them one at a time, as the iterator does; the fuel
    given by [range] is the distance to [stop], which no step of absolute
    value at least one outlasts. *)
Fixpoint range_up (fuel : nat) (i stop step : Z) : list Z :=
  match fuel with
  | O => []
  | S fuel' =>
      if bool_decide (i < stop) then i :: range_up fuel' (i + step) stop step
      else []
  end.

Fixpoint range_down (fuel : nat) (i stop step : Z) : list Z :=
  match fuel with
  | O => []
  | S fuel' =>
      if bool_decide (stop < i) then i :: range_down fuel' (i + step) stop step
      else []
  end.

Definition range (start stop step : Z) : result (list Z) :=
  if bool_decide (step = 0) then
    Raise (ValueError "range() arg 3 must not be zero")
  else if bool_decide (0 < step) then
    Ok (range_up (Z.to_nat (stop - start)) start stop step)
  else
    Ok (range_down (Z.to_nat (start - stop)) start stop step).

(** A slice bound is taken from the end when negative and clipped to the
    length of the sequence. *)
Definition clip (len k : Z) : Z :=
  if bool_decide (k < 0) then Z.max 0 (k + len) else Z.min k len.

(** [l[lo:hi]] *)
Definition slice {A} (l : list A) (lo hi : Z) : list A :=
  let n := Z.of_nat (length l) in
  let lo' := clip n lo in
  let hi' := clip n hi in
  take (Z.to_nat (hi' - lo')) (drop (Z.to_nat lo') l).

(** [a // b], floor division: Rocq's [Z.div] rounds towards minus infinity
    for either sign of the divisor, as Python does. *)
Definition floordiv (a b : Z) : result Z :=
  if bool_decide (b = 0) then
    Raise (ZeroDivisionError "integer division or modulo by zero")
  else Ok (a `div` b).

End Py.
Export Py.

(** ** numpy and torch helpers *)

Module np.

(** [a[j]] on a one-dimensional array: a negative position counts from the
    end, a position outside [-len, len) raises [IndexError]. *)
Definition item {A} (a : list A) (j : Z) : result A :=
  let n := Z.of_nat (length a) in
  if bool_decide (- n ≤ j < n) then
    match a !! Z.to_nat (if bool_decide (j < 0) then j + n else j) with
    | Some x => Ok x
    | None => Raise (IndexError "index out of bounds")
    end
  else Raise (IndexError "index out of bounds").

(** [a[js]] for a list of integer positions (integer array indexing). *)
Definition take {A} (a : list A) (js : list Z) : result (list A) :=
  mapM (item a) js.

(** [np.arange(n)], also [torch.arange(n).tolist()] *)
Definition arange (n : nat) : list Z := Z.of_nat <$> seq 0 n.

(** [np.where(mask)[0].ravel()]: the positions holding [True], ascending. *)
Fixpoint where_from (i : Z) (mask : list bool) : list Z :=
  match mask with
  | [] => []
  | b :: mask' =>
      if b then i :: where_from (i + 1) mask' else where_from (i + 1) mask'
  end.

Definition where_ (mask : list bool) : list Z := where_from 0 mask.

(** An entry of an index array.  The arrays handed to a sampler are numpy
    arrays of an integer dtype or of dtype bool; both kinds of entry occur. *)
Inductive elt :=
| Int (z : Z)
| Bool (b : bool).

#[global] Instance elt_eq_dec : EqDecision elt.
Proof. solve_decision. Defined.

#[global] Instance Int_inj : Inj eq eq Int.
Proof. by intros z1 z2 [= ->]. Qed.

(** An array of integers, and an array of booleans. *)
Abbreviation ints := (fmap (M := list) Int).
Abbreviation bools := (fmap (M := list) Bool).

(** The element at a position known to be in range ([Int 0] outside it); it
    is used to state what [take] returns when it does not raise. *)
Definition at_ (a : list elt) (j : Z) : elt := default (Int 0) (a !! Z.to_nat j).

End np.

(** ** [class BatchSampler] *)

Module BatchSampler.

Record t := {
  indices : list np.elt;
  batch_size : Z;
  shuffle : bool
}.

Definition __init__ (indices : list np.elt) (batch_size : Z) (shuffle : bool) : t :=
  {| indices := indices; batch_size := batch_size; shuffle := shuffle |}.

(** [__iter__].  [randperm n] stands for the list that
    [torch.randperm(n).tolist()] returns on this call; it is drawn afresh on
    every call and only read when [shuffle] is set.  The list comprehension
    is evaluated in full before the iterator over it is returned, so the
    outcome is the list of batches or the first exception raised. *)
Definition __iter__ (self : t) (randperm : nat → list Z)
  : result (list (list np.elt)) :=
  let idx :=
    if shuffle self then randperm (length (indices self))
    else np.arange (length (indices self)) in
  starts ← range 0 (Z.of_nat (length idx)) (batch_size self);
  mapM (λ i, np.take (indices self) (slice idx i (i + batch_size self)))
       starts.

Definition __len__ (self : t) : result Z :=
  floordiv (Z.of_nat (length (indices self))) (batch_size self).

End BatchSampler.

(** ** Dictionaries, and the store of the mutable ones *)

Module dict.

(** [d[k]] *)
Definition getitem {V} (d : gmap string V) (k : string) : result V :=
  match d !! k with
  | Some v => Ok v
  | None => Raise (KeyError k)
  end.

(** [for x in l: body(x)], stopping at the first exception. *)
Fixpoint for_each {A} (l : list A) (body : A → result ()) : result () :=
  match l with
  | [] => Ok ()
  | x :: l' => _ ← body x; for_each l' body
  end.

End dict.

(** ** [scvi._CONSTANTS] *)

Module _CONSTANTS.

(** Modelled from the spec: the module [scvi/_constants.py] that defines the
    registry key names is not among the sources; sections 3, 4.2 and 6 of the
    specification name the recognised default fields X, batch, local_l_mean,
    local_l_var and labels. *)
Definition X_KEY : string := "X".
Definition BATCH_KEY : string := "batch".
Definition LOCAL_L_MEAN_KEY : string := "local_l_mean".
Definition LOCAL_L_VAR_KEY : string := "local_l_var".
Definition LABELS_KEY : string := "labels".

End _CONSTANTS.

(** ** [class ScviDataLoader] *)

Module ScviDataLoader.

(** numpy scalar types a field can be cast to *)
Inductive dtype := float32 | float64 | int32 | int64.

#[global] Instance dtype_eq_dec : EqDecision dtype.
Proof. solve_decision. Defined.

(** [data_and_attributes]: a dictionary from field name to dtype.  Its keys
    are visited in insertion order by the registration check, so it is kept
    as an association list. *)
Abbreviation FieldSpec := (list (string * dtype)).

(** Where a registered field lives in the container. *)
Record registry_entry := {
  attr_name : string;
  attr_key : string
}.

(** [anndata.AnnData], as far as the loader looks into it: [uns] is read at
    ["_scvi"], and that entry at ["data_registry"], whose keys are the
    registered field names.  [n_obs] is the number of rows. *)
Record AnnData := {
  uns : gmap string (gmap string (gmap string registry_entry));
  n_obs : nat
}.

(** The [indices] argument when it is given. *)
Inductive index_arg :=
| BoolArray (mask : list bool)   (* an ndarray whose dtype is bool *)
| IntArray (pos : list Z)        (* an ndarray of an integer dtype *)
| IntList (pos : list Z)         (* a Python list of integers: no [dtype] *)
| BoolList (mask : list bool)    (* a Python list of booleans: no [dtype] *)
| BoolTensor (mask : list bool). (* a torch tensor of booleans: its [dtype]
                                    is not [np.dtype("bool")] *)

(** [hasattr(indices, "dtype") and indices.dtype is np.dtype("bool")] *)
Definition has_numpy_bool_dtype (i : index_arg) : bool :=
  match i with
  | BoolArray _ => true
  | IntArray _ | IntList _ | BoolList _ | BoolTensor _ => false
  end.

(** [np.where(indices)[0].ravel()]: the positions of the entries that are
    true (for numbers: not zero), as an integer array. *)
Definition where_ravel (i : index_arg) : index_arg :=
  IntArray (np.where_
    match i with
    | BoolArray mask | BoolList mask | BoolTensor mask => mask
    | IntArray pos | IntList pos => (λ z, bool_decide (z ≠ 0)) <$> pos
    end).

(** [np.asarray(indices)]: an array is left as it is, a list or a tensor
    becomes the array of its elements; booleans stay booleans. *)
Definition asarray (i : index_arg) : list np.elt :=
  match i with
  | IntArray pos | IntList pos => np.ints pos
  | BoolArray mask | BoolList mask | BoolTensor mask => np.bools mask
  end.

(** The array that the [else] branch binds to [indices]. *)
Definition positions (indices : index_arg) : list np.elt :=
  let indices :=
    if has_numpy_bool_dtype indices then where_ravel indices else indices in
  asarray indices.

(** The dictionary [sampler_kwargs]: always the same three keys. *)
Record sampler_kwargs_t := {
  sk_indices : list np.elt;
  sk_batch_size : Z;
  sk_shuffle : bool
}.

(** [BatchSampler] applied to the unpacked [sampler_kwargs] *)
Definition make_sampler (kw : sampler_kwargs_t) : BatchSampler.t :=
  BatchSampler.__init__ (sk_indices kw) (sk_batch_size kw) (sk_shuffle kw).

(** Values of the keyword configuration handed to [DataLoader]. *)
Inductive kwarg :=
| KwNone
| KwBool (b : bool)
| KwInt (z : Z)
| KwSampler (s : BatchSampler.t)
| KwObject (repr : string).

(** Dictionaries of keyword arguments are mutable objects: they live in a
    store and are passed by reference.  Every reference a caller holds names
    an object of the store. *)
Abbreviation loc := positive.
Abbreviation store := (gmap loc (gmap string kwarg)).

(** Construction runs in the store and may raise. *)
Definition io (A : Type) : Type := store → result A * store.

#[global] Instance io_ret : MRet io := λ A a h, (Ok a, h).
#[global] Instance io_bind : MBind io := λ A B f m h,
  match m h with
  | (Ok a, h') => f a h'
  | (Raise e, h') => (Raise e, h')
  end.

Definition lift {A} (r : result A) : io A := λ h, (r, h).

(** [*l], the dictionary a reference names *)
Definition deref (l : loc) : io (gmap string kwarg) :=
  λ h, (Ok (default ∅ (h !! l)), h).

(** [copy.copy(d)]: a new dictionary with the entries of [d] *)
Definition copy_copy (l : loc) : io loc :=
  λ h, let l' := fresh (dom h) in (Ok l', <[l' := default ∅ (h !! l)]> h).

(** [d.update(other)], [other] listed in insertion order *)
Definition update (l : loc) (other : list (string * kwarg)) : io () :=
  λ h, (Ok (),
        <[l := foldl (λ d kv, <[kv.1 := kv.2]> d) (default ∅ (h !! l)) other]> h).

(** The collaborators that are not part of the two modules: the dataset view
    [scvi.data._scvidataset.ScviDataset] and the constructor of
    [torch.utils.data.DataLoader].  Either constructor may raise. *)
Class Externals := {
  ScviDataset : Type;
  (** [ScviDataset(adata, getitem_tensors=...)] *)
  ScviDataset_init : AnnData → option FieldSpec → result ScviDataset;
  (** [len(dataset)] *)
  ScviDataset_len : ScviDataset → nat;
  (** [DataLoader.__init__] applied to the dataset and the unpacked
      keyword dictionary *)
  DataLoader_init : ScviDataset → gmap string kwarg → result ()
}.

Section loader.
Context `{Externals}.

Record t := {
  _data_and_attributes : FieldSpec;
  dataset : ScviDataset;
  to_monitor : list string;
  use_cuda : bool;
  indices : option (list np.elt);
  sampler_kwargs : sampler_kwargs_t;
  data_loader_kwargs : loc
}.

Definition NotConfiguredError : exn :=
  ValueError "Please run setup_anndata() on your anndata object first.".

Definition MissingFieldError (key : string) : exn :=
  ValueError
    (key +:+ " required for model but not included when setup_anndata was run").

Definition default_data_and_attributes : FieldSpec :=
  [ (_CONSTANTS.X_KEY, float32);
    (_CONSTANTS.BATCH_KEY, int64);
    (_CONSTANTS.LOCAL_L_MEAN_KEY, float32);
    (_CONSTANTS.LOCAL_L_VAR_KEY, float32);
    (_CONSTANTS.LABELS_KEY, int64) ].

Definition __init__
    (adata : AnnData) (shuffle : bool) (indices : option index_arg)
    (use_cuda : bool) (batch_size : Z) (data_loader_kwargs : loc)
    (data_and_attributes : option FieldSpec) : io t :=
  _ ← lift (if bool_decide ("_scvi" ∉ dom (uns adata))
            then Raise NotConfiguredError else Ok ());
  let self_data_and_attributes :=
    match data_and_attributes with
    | None => default_data_and_attributes
    | Some spec => spec
    end in
  _ ← lift (dict.for_each self_data_and_attributes.*1 (λ key,
         scvi ← dict.getitem (uns adata) "_scvi";
         registry ← dict.getitem scvi "data_registry";
         if bool_decide (key ∉ dom registry)
         then Raise (MissingFieldError key) else Ok ()));
  self_dataset ← lift (ScviDataset_init adata data_and_attributes);
  let self_to_monitor := [] in
  let self_use_cuda := use_cuda in
  let '(indices, sampler_kwargs) :=
    match indices with
    | None =>
        let inds := np.ints (np.arange (ScviDataset_len self_dataset)) in
        if shuffle
        then (None, {| sk_indices := inds; sk_batch_size := batch_size;
                       sk_shuffle := true |})
        else (None, {| sk_indices := inds; sk_batch_size := batch_size;
                       sk_shuffle := false |})
    | Some indices =>
        let indices := positions indices in
        (Some indices, {| sk_indices := indices; sk_batch_size := batch_size;
                          sk_shuffle := true |})
    end in
  let sampler := make_sampler sampler_kwargs in
  self_data_loader_kwargs ← copy_copy data_loader_kwargs;
  _ ← update self_data_loader_kwargs
        [("sampler", KwSampler sampler); ("batch_size", KwNone)];
  kwargs ← deref self_data_loader_kwargs;
  _ ← lift (DataLoader_init self_dataset kwargs);
  mret {| _data_and_attributes := self_data_and_attributes;
          dataset := self_dataset;
          to_monitor := self_to_monitor;
          use_cuda := self_use_cuda;
          indices := indices;
          sampler_kwargs := sampler_kwargs;
          data_loader_kwargs := self_data_loader_kwargs |}.

End loader.

(** A stand-in for the collaborators that records what it is given: the
    dataset view is the pair of its constructor arguments, its length is the
    number of rows of the container, and both constructors accept. *)
Definition recording : Externals := {|
  ScviDataset := AnnData * option FieldSpec;
  ScviDataset_init := λ adata getitem_tensors, Ok (adata, getitem_tensors);
  ScviDataset_len := λ ds, n_obs ds.1;
  DataLoader_init := λ _ _, Ok ()
|}.

(** The recording collaborators with a [DataLoader] constructor that, like
    torch's, refuses [shuffle=True] next to a sampler. *)
Definition recording_strict : Externals := {|
  ScviDataset := AnnData * option FieldSpec;
  ScviDataset_init := λ adata getitem_tensors, Ok (adata, getitem_tensors);
  ScviDataset_len := λ ds, n_obs ds.1;
  DataLoader_init := λ _ kw,
    match kw !! "shuffle" with
    | Some (KwBool true) =>
        Raise (ValueError "sampler option is mutually exclusive with shuffle")
    | _ => Ok ()
    end
|}.

(** The positions at which a mask is true, written from the specification's
    words ("the positional indices where the mask is true"). *)
Definition true_positions (mask : list bool) : list Z :=
  Z.of_nat <$> filter (λ i, mask !! i = Some true) (seq 0 (length mask)).

End ScviDataLoader.

(** ** Concrete containers and stores used in the examples *)

Module Fixtures.
Import ScviDataLoader.

Definition entry (k : string) : registry_entry :=
  {| attr_name := "obs"; attr_key := "_scvi_" +:+ k |}.

(** A registry with the five default fields and one more. *)
Definition registry6 : gmap string registry_entry :=
  list_to_map ((λ k, (k, entry k)) <$>
    ["X"; "batch"; "local_l_mean"; "local_l_var"; "labels"; "protein"]).

(** A container of four rows on which [setup_anndata] has been run. *)
Definition adata_setup : AnnData :=
  {| uns := {[ "_scvi" := {[ "data_registry" := registry6 ]} ]}; n_obs := 4 |}.

(** A container without the ["_scvi"] entry. *)
Definition adata_raw : AnnData := {| uns := ∅; n_obs := 4 |}.

(** The caller's keyword dictionary, at reference 1, asking for its own
    sampler and batch size. *)
Definition caller_kwargs : gmap string kwarg :=
  {[ "num_workers" := KwInt 2;
     "sampler" := KwObject "RandomSampler";
     "batch_size" := KwInt 64 ]}.

Definition caller_store : store := {[ 1%positive := caller_kwargs ]}.

(** A caller's dictionary that also asks for shuffling, at reference 1. *)
Definition shuffling_kwargs : gmap string kwarg :=
  {[ "shuffle" := KwBool true; "batch_size" := KwInt 64 ]}.

Definition shuffling_store : store := {[ 1%positive := shuffling_kwargs ]}.

End Fixtures.

(** ** Python floats *)

Module float.

(** A Python [float] is an IEEE-754 binary64 number. *)
Abbreviation t := SpecFloat.spec_float.

(** [x + y], rounded to nearest, ties to even *)
Definition add (x y : t) : t := SpecFloat.SFadd 53 1024 x y.

(** [x == y]: false as soon as one side is a NaN, true on the two zeros *)
Definition eqb (x y : t) : bool := SpecFloat.SFeqb x y.

(** The literal [0.0] *)
Definition zero : t := SpecFloat.S754_zero false.

(** The float nearest to [m * 2^e]; every literal used below is of this form. *)
Definition of_dyadic (m e : Z) : t := SpecFloat.binary_normalize 53 1024 m e false.

Definition is_nan (x : t) : bool :=
  match x with SpecFloat.S754_nan => true | _ => false end.

(** The literal [-0.0] *)
Definition neg_zero : t := SpecFloat.S754_zero true.

(** The literals of the examples: 2.0, 3.0, 0.5, 0.1, 1.0, 1.5 and 2.5. *)
Definition f2_0 : t := of_dyadic 2 0.
Definition f3_0 : t := of_dyadic 3 0.
Definition f0_5 : t := of_dyadic 1 (-1).
Definition f0_1 : t := of_dyadic 7205759403792794 (-56).
Definition f1_0 : t := of_dyadic 1 0.
Definition f1_5 : t := of_dyadic 3 (-1).
Definition f2_5 : t := of_dyadic 5 (-1).

End float.

(** ** [class SCVILoss] *)

Module SCVILoss.

(** What the terms of a loss are and how [+] acts on them.  [of_float] is the
    term a Python float denotes (the accumulator starts at [0.0]); [add] may
    raise, as [+] does on operands it does not support. *)
Class Term (V : Type) := {
  of_float : float.t → V;
  add : V → V → result V
}.

(** Terms that are Python floats. *)
#[global] Instance float_term : Term float.t := {|
  of_float := id;
  add := λ x y, Ok (float.add x y)
|}.

(** Terms that are a float or an object without arithmetic, such as [None]. *)
#[global] Instance float_or_none_term : Term (option float.t) := {|
  of_float := Some;
  add := λ x y,
    match x, y with
    | Some a, Some b => Ok (Some (float.add a b))
    | _, _ => Raise (TypeError "unsupported operand type(s) for +")
    end
|}.

(** An argument of the constructor: a dictionary of named terms, kept in
    insertion order, or anything else. *)
Inductive arg (V : Type) :=
| Dict (d : list (string * V))
| Bare (v : V).
Arguments Dict {V} d.
Arguments Bare {V} v.

Definition isinstance_dict {V} (a : arg V) : bool :=
  match a with Dict _ => true | Bare _ => false end.

Record t (V : Type) := {
  _loss : list (string * V);
  _reconstruction_loss : list (string * V);
  _kl_local : list (string * V);
  _kl_global : list (string * V)
}.
Arguments _loss {V} _.
Arguments _reconstruction_loss {V} _.
Arguments _kl_local {V} _.
Arguments _kl_global {V} _.

(** [x if isinstance(x, dict) else dict(name=x)] *)
Definition dict_or_named {V} (name : string) (x : arg V) : list (string * V) :=
  match x with
  | Dict d => d
  | Bare v => [(name, v)]
  end.

Definition __init__ {V} (loss reconstruction_loss kl_local kl_global : arg V)
  : t V :=
  {| _loss := dict_or_named "loss" loss;
     _reconstruction_loss :=
       dict_or_named "reconstruction_loss" reconstruction_loss;
     _kl_local := dict_or_named "kl_local" kl_local;
     _kl_global := dict_or_named "kl_global" kl_global |}.

(** The loop of [_get_dict_sum]: [sum += value] for each value in turn. *)
Fixpoint sum_values `{Term V} (sum : V) (values : list V) : result V :=
  match values with
  | [] => Ok sum
  | value :: values' => sum' ← add sum value; sum_values sum' values'
  end.

Definition _get_dict_sum `{Term V} (dictionary : list (string * V)) : result V :=
  sum_values (of_float float.zero) dictionary.*2.

Definition loss `{Term V} (self : t V) : result V :=
  _get_dict_sum (_loss self).

Definition reconstruction_loss `{Term V} (self : t V) : result V :=
  _get_dict_sum (_reconstruction_loss self).

Definition kl_local `{Term V} (self : t V) : result V :=
  _get_dict_sum (_kl_local self).

Definition kl_global `{Term V} (self : t V) : result V :=
  _get_dict_sum (_kl_global self).

(** [elbo] has an empty [return]: it yields [None]. *)
Definition elbo {V} (self : t V) : option V := None.

End SCVILoss.

(** ** [class AbstractVAE] and [_get_dict_if_none] *)

Module AbstractVAE.

(** Python values passed through the forward pass.  Tensors, modules and loss
    objects are opaque to it and appear as [PyObject]. *)
#[warnings="-register-all"]
Inductive pyobj :=
| PyNone
| PyBool (b : bool)
| PyInt (z : Z)
| PyStr (s : string)
| PyObject (repr : string)
| PyList (l : list pyobj)
| PyTuple (l : list pyobj)
| PyDict (d : gmap string pyobj).

Abbreviation kwargs := (gmap string pyobj).

Definition isinstance_dict (o : pyobj) : bool :=
  match o with PyDict _ => true | _ => false end.

Definition _get_dict_if_none (param : pyobj) : pyobj :=
  let param := if negb (isinstance_dict param) then PyDict ∅ else param in
  param.

(** Unpacking [o] into keyword arguments: [o] must be a mapping. *)
Definition unpack (o : pyobj) : result kwargs :=
  match o with
  | PyDict d => Ok d
  | _ => Raise (TypeError "argument after ** must be a mapping")
  end.

(** Two unpacked dictionaries in one call: a key given twice is an error. *)
Definition merge (a b : kwargs) : result kwargs :=
  if decide (a ##ₘ b) then Ok (a ∪ b)
  else Raise (TypeError "got multiple values for keyword argument").

(** The stages of a forward pass. *)
Inductive stage :=
| GetInferenceInput | Inference | GetGenerativeInput | Generative | Loss.

#[global] Instance stage_eq_dec : EqDecision stage.
Proof. solve_decision. Defined.

(** One invocation of a hook: which one, and what it was given. *)
Record call := {
  call_stage : stage;
  call_args : list pyobj;
  call_kwargs : kwargs
}.

(** The abstract methods.  A hook takes positional and keyword arguments,
    may read and change the state of the module ([world]), and returns or
    raises. *)
Class Hooks := {
  world : Type;
  _get_inference_input : list pyobj → kwargs → world → result pyobj * world;
  _get_generative_input : list pyobj → kwargs → world → result pyobj * world;
  inference : list pyobj → kwargs → world → result pyobj * world;
  generative : list pyobj → kwargs → world → result pyobj * world;
  loss : list pyobj → kwargs → world → result pyobj * world;
  sample : list pyobj → kwargs → world → result pyobj * world
}.

Section forward.
Context `{Hooks}.

(** A forward pass runs in the state of the module and records, in order,
    the hook invocations it makes. *)
Definition fw (A : Type) : Type :=
  world * list call → result A * (world * list call).

#[global] Instance fw_ret : MRet fw := λ A a st, (Ok a, st).
#[global] Instance fw_bind : MBind fw := λ A B f m st,
  match m st with
  | (Ok a, st') => f a st'
  | (Raise e, st') => (Raise e, st')
  end.

Definition lift {A} (r : result A) : fw A := λ st, (r, st).

Definition invoke (s : stage)
    (hook : list pyobj → kwargs → world → result pyobj * world)
    (args : list pyobj) (kw : kwargs) : fw pyobj :=
  λ st,
    let '(r, w') := hook args kw st.1 in
    (r, (w', st.2 ++ [{| call_stage := s; call_args := args; call_kwargs := kw |}])).

(** The body of [forward].  The decorator [auto_move_data] that wraps it
    belongs to [scvi/compose/_decorators.py], which is not among the sources;
    it relocates tensors to the device of the module and leaves the staging
    below as it is. *)
Definition forward (tensors : pyobj)
    (get_inference_input_kwargs get_generative_input_kwargs
     inference_kwargs generative_kwargs loss_kwargs : pyobj)
    (compute_loss : bool) : fw pyobj :=
  let inference_kwargs := _get_dict_if_none inference_kwargs in
  let generative_kwargs := _get_dict_if_none generative_kwargs in
  let loss_kwargs := _get_dict_if_none loss_kwargs in
  let get_inference_input_kwargs := _get_dict_if_none get_inference_input_kwargs in
  let get_generative_input_kwargs := _get_dict_if_none get_generative_input_kwargs in
  kw ← lift (unpack get_inference_input_kwargs);
  inference_inputs ← invoke GetInferenceInput _get_inference_input [tensors] kw;
  kw ← lift (a ← unpack inference_inputs; b ← unpack inference_kwargs; merge a b);
  inference_outputs ← invoke Inference inference [] kw;
  kw ← lift (unpack get_generative_input_kwargs);
  generative_inputs ←
    invoke GetGenerativeInput _get_generative_input [tensors; inference_outputs] kw;
  kw ← lift (a ← unpack generative_inputs; b ← unpack generative_kwargs; merge a b);
  generative_outputs ← invoke Generative generative [] kw;
  if compute_loss then
    kw ← lift (unpack loss_kwargs);
    losses ← invoke Loss loss [tensors; inference_outputs; generative_outputs] kw;
    mret (PyTuple [inference_outputs; generative_outputs; losses])
  else
    mret (PyTuple [inference_outputs; generative_outputs]).

(** The keyword dictionary an override argument stands for. *)
Definition override (param : pyobj) : kwargs :=
  match param with PyDict d => d | _ => ∅ end.

End forward.

(** The hooks of a model with the loss hook replaced. *)
Definition with_loss (H : Hooks)
    (loss' : list pyobj → kwargs → @world H → result pyobj * @world H) : Hooks := {|
  world := @world H;
  _get_inference_input := @_get_inference_input H;
  _get_generative_input := @_get_generative_input H;
  inference := @inference H;
  generative := @generative H;
  loss := loss';
  sample := @sample H
|}.

(** A small concrete model: every hook is pure; inference inputs are the
    batch under the name ["x"], inference returns an opaque latent, generative
    inputs are that latent under ["z"], and the loss hook always raises. *)
Definition toy : Hooks := {|
  world := ();
  _get_inference_input := λ args kw w,
    (Ok (PyDict {[ "x" := default PyNone (args !! 0%nat) ]}), w);
  inference := λ args kw w, (Ok (PyObject "qz"), w);
  _get_generative_input := λ args kw w,
    (Ok (PyDict {[ "z" := default PyNone (args !! 1%nat) ]}), w);
  generative := λ args kw w, (Ok (PyObject "px"), w);
  loss := λ args kw w, (Raise (ValueError "loss must not be called"), w);
  sample := λ args kw w, (Ok PyNone, w)
|}.


(** The toy model with an inference hook that raises. *)
Definition toy_failing_inference : Hooks := {|
  world := ();
  _get_inference_input := λ args kw w,
    (Ok (PyDict {[ "x" := default PyNone (args !! 0%nat) ]}), w);
  inference := λ args kw w, (Raise (ValueError "nan in the latent"), w);
  _get_generative_input := λ args kw w,
    (Ok (PyDict {[ "z" := default PyNone (args !! 1%nat) ]}), w);
  generative := λ args kw w, (Ok (PyObject "px"), w);
  loss := λ args kw w, (Ok (PyObject "SCVILoss"), w);
  sample := λ args kw w, (Ok PyNone, w)
|}.

(** The same model with a loss hook that returns. *)
Definition toy_with_loss : Hooks := {|
  world := ();
  _get_inference_input := λ args kw w,
    (Ok (PyDict {[ "x" := default PyNone (args !! 0%nat) ]}), w);
  inference := λ args kw w, (Ok (PyObject "qz"), w);
  _get_generative_input := λ args kw w,
    (Ok (PyDict {[ "z" := default PyNone (args !! 1%nat) ]}), w);
  generative := λ args kw w, (Ok (PyObject "px"), w);
  loss := λ args kw w, (Ok (PyObject "SCVILoss"), w);
  sample := λ args kw w, (Ok PyNone, w)
|}.

End AbstractVAE.

(* ===================================================================== *)
(** * Part II: properties                                                 *)
(* ===================================================================== *)

(** ** Runtime lemmas *)

Lemma mapM_result_ok {A B} (f : A → result B) (g : A → B) (l : list A) :
  Forall (λ x, f x = Ok (g x)) l → mapM f l = Ok (g <$> l).
Proof.
  induction 1 as [|x l Hx _ IH]; [done|].
  cbn. rewrite Hx. cbn. rewrite IH. done.
Qed.

Lemma slice_forward {A} (l : list A) (lo hi : Z) :
  0 ≤ lo ≤ hi →
  slice l lo hi = take (Z.to_nat (hi - lo)) (drop (Z.to_nat lo) l).
Proof.
  intros [Hlo Hhi]. unfold slice, clip.
  rewrite !bool_decide_eq_false_2 by lia.
  set (n := Z.of_nat (length l)).
  destruct (decide (lo ≤ n)) as [Hle|Hgt].
  - rewrite (Z.min_l lo n) by lia.
    destruct (decide (hi ≤ n)) as [Hh|Hh].
    + by rewrite (Z.min_l hi n) by lia.
    + rewrite (Z.min_r hi n) by lia.
      rewrite !take_ge; [done| |]; rewrite length_drop; lia.
  - rewrite (Z.min_r lo n), (Z.min_r hi n) by lia.
    rewrite !drop_ge by lia. by rewrite !take_nil.
Qed.

Lemma range_up_length (step stop : Z) (fuel : nat) (i : Z) :
  0 < step → stop - i ≤ Z.of_nat fuel →
  Z.of_nat (length (range_up fuel i stop step))
  = Z.max 0 ((stop - i + step - 1) `div` step).
Proof.
  intros Hstep. revert i. induction fuel as [|fuel IH]; intros i Hfuel.
  - cbn [range_up length].
    assert ((stop - i + step - 1) `div` step ≤ 0); [|lia].
    apply Z.lt_succ_r, Z.div_lt_upper_bound; lia.
  - cbn [range_up]. case_bool_decide as Hlt.
    + cbn [length]. rewrite Nat2Z.inj_succ, IH by lia.
      replace (stop - i + step - 1) with (stop - (i + step) + step - 1 + 1 * step)
        by lia.
      rewrite Z.div_add by lia.
      assert (0 ≤ (stop - (i + step) + step - 1) `div` step); [|lia].
      apply Z.div_pos; lia.
    + cbn [length].
      assert ((stop - i + step - 1) `div` step ≤ 0); [|lia].
      apply Z.lt_succ_r, Z.div_lt_upper_bound; lia.
Qed.

Lemma range_up_bounds (step stop : Z) (fuel : nat) (i : Z) :
  0 < step → Forall (λ j, i ≤ j < stop) (range_up fuel i stop step).
Proof.
  intros Hstep. revert i. induction fuel as [|fuel IH]; intros i; cbn.
  - constructor.
  - case_bool_decide; constructor; [lia|].
    eapply Forall_impl; [apply IH|]. cbn. intros; lia.
Qed.

(** Cutting [idx] at the multiples of [step] loses and repeats nothing. *)
Lemma chunks_join {A} (idx : list A) (step : Z) (fuel : nat) (i : Z) :
  0 < step → 0 ≤ i → Z.of_nat (length idx) - i ≤ Z.of_nat fuel →
  mjoin ((λ j, slice idx j (j + step))
           <$> range_up fuel i (Z.of_nat (length idx)) step)
  = drop (Z.to_nat i) idx.
Proof.
  intros Hstep. revert i. induction fuel as [|fuel IH]; intros i Hi Hfuel.
  - cbn. rewrite drop_ge; [done|lia].
  - cbn [range_up]. case_bool_decide as Hlt.
    + rewrite fmap_cons. cbn [mjoin list_join].
      rewrite IH by lia.
      rewrite slice_forward by lia.
      replace (Z.to_nat (i + step)) with (Z.to_nat i + Z.to_nat step)%nat by lia.
      replace (Z.to_nat (i + step - i)) with (Z.to_nat step) by lia.
      rewrite <- drop_drop. apply take_drop.
    + cbn. rewrite drop_ge; [done|lia].
Qed.

Lemma np_item_in_range (a : list np.elt) (j : Z) :
  0 ≤ j < Z.of_nat (length a) → np.item a j = Ok (np.at_ a j).
Proof.
  intros Hj. unfold np.item, np.at_.
  rewrite bool_decide_eq_true_2 by lia.
  rewrite (bool_decide_eq_false_2 (j < 0)) by lia.
  destruct (lookup_lt_is_Some_2 a (Z.to_nat j)) as [x Hx]; [lia|].
  by rewrite Hx.
Qed.

Lemma np_take_in_range (a : list np.elt) (js : list Z) :
  Forall (λ j, 0 ≤ j < Z.of_nat (length a)) js →
  np.take a js = Ok (np.at_ a <$> js).
Proof.
  intros Hjs. apply mapM_result_ok.
  eapply Forall_impl; [exact Hjs|]. apply np_item_in_range.
Qed.

Lemma np_arange_length (n : nat) : length (np.arange n) = n.
Proof. unfold np.arange. by rewrite length_fmap, length_seq. Qed.

Lemma np_arange_bounds (n : nat) :
  Forall (λ j, 0 ≤ j < Z.of_nat n) (np.arange n).
Proof.
  unfold np.arange. apply Forall_fmap, Forall_forall.
  intros k Hk%elem_of_seq. cbn. lia.
Qed.

(** Reading an array at [0, 1, ..., len-1] gives the array back. *)
Lemma np_at_arange (a : list np.elt) : np.at_ a <$> np.arange (length a) = a.
Proof.
  unfold np.arange. rewrite <- list_fmap_compose.
  apply list_eq. intros k. rewrite list_lookup_fmap.
  destruct (decide (k < length a)%nat) as [Hk|Hk].
  - rewrite lookup_seq_lt by done. cbn. unfold np.at_.
    rewrite Nat2Z.id.
    destruct (lookup_lt_is_Some_2 a k Hk) as [x Hx]. by rewrite Hx.
  - rewrite lookup_seq_ge by lia. cbn.
    symmetry. apply lookup_ge_None. lia.
Qed.

Lemma join_fmap_each {A B C} (f : B → C) (g : A → list B) (l : list A) :
  mjoin ((λ x, f <$> g x) <$> l) = f <$> mjoin (g <$> l).
Proof.
  induction l as [|x l IH]; [done|].
  rewrite !fmap_cons. cbn [mjoin list_join]. rewrite fmap_app. by f_equal.
Qed.

(** ** [BatchSampler] *)

Section batch_sampler.
Import BatchSampler.

Variable s : BatchSampler.t.
Variable randperm : nat → list Z.

Let n := length (indices s).
Let b := batch_size s.

(** The positions visited on one pass: the drawn permutation or [0..n-1]. *)
Let idx :=
  if shuffle s then randperm n else np.arange n.

Hypothesis batch_size_pos : 1 ≤ b.
Hypothesis randperm_perm : shuffle s = true → randperm n ≡ₚ np.arange n.

Lemma idx_perm : idx ≡ₚ np.arange n.
Proof using randperm_perm.
  unfold idx. destruct (shuffle s); [by apply randperm_perm|done].
Qed.

Lemma idx_length : length idx = n.
Proof using randperm_perm.
  by rewrite idx_perm, np_arange_length.
Qed.

Lemma idx_bounds : Forall (λ j, 0 ≤ j < Z.of_nat n) idx.
Proof using randperm_perm.
  rewrite idx_perm. apply np_arange_bounds.
Qed.

(** One pass returns the consecutive slices of [idx], read through the
    array of indices. *)
Lemma iter_batches :
  __iter__ s randperm
  = Ok ((λ i, np.at_ (indices s) <$> slice idx i (i + b))
          <$> range_up n 0 (Z.of_nat n) b).
Proof using batch_size_pos randperm_perm.
  unfold __iter__. fold n idx b. rewrite idx_length.
  unfold range. rewrite bool_decide_eq_false_2, bool_decide_eq_true_2 by lia.
  replace (Z.to_nat (Z.of_nat n - 0)) with n by lia.
  cbn [mbind result_bind]. apply mapM_result_ok.
  eapply Forall_impl; [apply (range_up_bounds b (Z.of_nat n) n 0); lia|].
  cbn beta. intros i Hi. apply np_take_in_range. fold n.
  rewrite slice_forward by lia.
  apply Forall_take, Forall_drop, idx_bounds.
Qed.

Lemma batches_join :
  mjoin ((λ i, np.at_ (indices s) <$> slice idx i (i + b))
           <$> range_up n 0 (Z.of_nat n) b)
  = np.at_ (indices s) <$> idx.
Proof using batch_size_pos randperm_perm.
  rewrite join_fmap_each. f_equal.
  rewrite <- idx_length at 1 2.
  rewrite chunks_join; [done|lia|lia|rewrite idx_length; lia].
Qed.

Lemma batches_count :
  Z.of_nat (length ((λ i, np.at_ (indices s) <$> slice idx i (i + b))
                      <$> range_up n 0 (Z.of_nat n) b))
  = (Z.of_nat n + b - 1) `div` b.
Proof using batch_size_pos.
  rewrite length_fmap, range_up_length by lia.
  rewrite Z.sub_0_r. apply Z.max_r, Z.div_pos; lia.
Qed.

End batch_sampler.

Example iter_in_order_5_by_2 :
  BatchSampler.__iter__ (BatchSampler.__init__ (np.ints [10; 20; 30; 40; 50]) 2 false)
                        (λ _, [])
  = Ok [np.ints [10; 20]; np.ints [30; 40]; np.ints [50]].
Proof. reflexivity. Qed.

Example iter_shuffled_5_by_2 :
  BatchSampler.__iter__ (BatchSampler.__init__ (np.ints [10; 20; 30; 40; 50]) 2 true)
                        (λ _, [3; 0; 4; 1; 2])
  = Ok [np.ints [40; 10]; np.ints [50; 20]; np.ints [30]].
Proof. reflexivity. Qed.

Example iter_zero_batch_size :
  BatchSampler.__iter__ (BatchSampler.__init__ (np.ints [10; 20]) 0 false)
                        (λ _, [])
  = Raise (ValueError "range() arg 3 must not be zero").
Proof. reflexivity. Qed.

Example len_5_by_2 :
  BatchSampler.__len__ (BatchSampler.__init__ (np.ints [10; 20; 30; 40; 50]) 2 false)
  = Ok 2.
Proof. reflexivity. Qed.

(** C1.  One pass over a sampler with [n] indices and batch size [b >= 1]
    raises nothing and yields [ceil(n/b)] batches (the least [q] with
    [n <= q*b]) whose sizes sum to [n]; together the batches hold every index
    exactly once, in the original order when [shuffle] is off; for [n = 0] the
    pass is empty.  The drawn permutation is read only when [shuffle] is on. *)
Theorem BatchSampler_iter_partition (s : BatchSampler.t) (randperm : nat → list Z) :
  let n := length (BatchSampler.indices s) in
  let b := BatchSampler.batch_size s in
  1 ≤ b →
  (BatchSampler.shuffle s = true → randperm n ≡ₚ np.arange n) →
  ∃ batches : list (list np.elt),
    BatchSampler.__iter__ s randperm = Ok batches
    ∧ Z.of_nat (length batches) = (Z.of_nat n + b - 1) `div` b
    ∧ b * (Z.of_nat (length batches) - 1) < Z.of_nat n ≤ b * Z.of_nat (length batches)
    ∧ sum_list (length <$> batches) = n
    ∧ mjoin batches ≡ₚ BatchSampler.indices s
    ∧ (BatchSampler.shuffle s = false → mjoin batches = BatchSampler.indices s)
    ∧ (n = 0%nat → batches = []).
Proof.
  intros n b Hb Hperm. subst n b.
  eexists. split; [by apply iter_batches|].
  pose proof (batches_count s randperm Hb) as Hcount.
  pose proof (batches_join s randperm Hb Hperm) as Hjoin.
  set (batches := _ <$> range_up _ _ _ _) in *.
  split; [exact Hcount|]. split.
  { rewrite Hcount.
    set (n := length (BatchSampler.indices s)).
    set (b := BatchSampler.batch_size s) in *.
    pose proof (Z.div_mod (Z.of_nat n + b - 1) b) as Hdm.
    pose proof (Z.mod_pos_bound (Z.of_nat n + b - 1) b). lia. }
  split.
  { rewrite <- length_join, Hjoin, length_fmap. by apply idx_length. }
  split.
  { rewrite Hjoin, (idx_perm s randperm Hperm).
    by rewrite np_at_arange. }
  split.
  { intros Hsh. rewrite Hjoin, Hsh. apply np_at_arange. }
  intros Hn. apply length_zero_iff_nil, Nat2Z.inj. rewrite Hcount, Hn.
  apply Z.div_small. lia.
Qed.

Lemma BatchSampler_iter_partition_witness :
  ∃ batches : list (list np.elt),
    BatchSampler.__iter__ (BatchSampler.__init__ (np.ints [7; 8; 9]) 2 true)
                          (λ _, [2; 0; 1]) = Ok batches
    ∧ Z.of_nat (length batches) = (Z.of_nat 3 + 2 - 1) `div` 2
    ∧ 2 * (Z.of_nat (length batches) - 1) < Z.of_nat 3 ≤ 2 * Z.of_nat (length batches)
    ∧ sum_list (length <$> batches) = 3%nat
    ∧ mjoin batches ≡ₚ np.ints [7; 8; 9]
    ∧ (true = false → mjoin batches = np.ints [7; 8; 9])
    ∧ (3%nat = 0%nat → batches = []).
Proof.
  refine (BatchSampler_iter_partition
            (BatchSampler.__init__ (np.ints [7; 8; 9]) 2 true) (λ _, [2; 0; 1])
            _ _).
  - cbn. lia.
  - intros _. cbn.
    change [2; 0; 1] with ([2] ++ [0; 1]).
    change [0; 1; 2] with ([0; 1] ++ [2]).
    apply Permutation_app_comm.
Defined.

(** C2.  For batch size [b >= 1], [__len__] returns [floor(n/b)]; this is
    strictly below the number of batches one pass yields exactly when [b] does
    not divide [n], and equal to it otherwise. *)
Theorem BatchSampler_len_floor (s : BatchSampler.t) (randperm : nat → list Z) :
  let n := length (BatchSampler.indices s) in
  let b := BatchSampler.batch_size s in
  1 ≤ b →
  (BatchSampler.shuffle s = true → randperm n ≡ₚ np.arange n) →
  BatchSampler.__len__ s = Ok (Z.of_nat n `div` b)
  ∧ ∃ batches : list (list np.elt),
      BatchSampler.__iter__ s randperm = Ok batches
      ∧ (Z.of_nat n `div` b < Z.of_nat (length batches) ↔ Z.of_nat n `mod` b ≠ 0)
      ∧ (Z.of_nat n `mod` b = 0 → Z.of_nat n `div` b = Z.of_nat (length batches))
      ∧ (Z.of_nat n `mod` b ≠ 0 →
         Z.of_nat (length batches) = Z.of_nat n `div` b + 1).
Proof.
  intros n b Hb Hperm. split.
  { unfold BatchSampler.__len__, floordiv. fold n b.
    by rewrite bool_decide_eq_false_2 by lia. }
  eexists. split; [by apply iter_batches|].
  rewrite (batches_count s randperm Hb). fold n b.
  pose proof (Z.div_mod (Z.of_nat n) b) as Hdm.
  pose proof (Z.mod_pos_bound (Z.of_nat n) b) as Hmod.
  destruct (decide (Z.of_nat n `mod` b = 0)) as [Hz|Hnz].
  - assert ((Z.of_nat n + b - 1) `div` b = Z.of_nat n `div` b) as ->; [|lia].
    symmetry. apply (Z.div_unique _ _ _ (b - 1)); lia.
  - assert ((Z.of_nat n + b - 1) `div` b = Z.of_nat n `div` b + 1) as ->; [|lia].
    symmetry. apply (Z.div_unique _ _ _ (Z.of_nat n `mod` b - 1)); lia.
Qed.

Lemma BatchSampler_len_floor_witness :
  BatchSampler.__len__ (BatchSampler.__init__ (np.ints [7; 8; 9]) 2 false) = Ok (Z.of_nat 3 `div` 2)
  ∧ ∃ batches : list (list np.elt),
      BatchSampler.__iter__ (BatchSampler.__init__ (np.ints [7; 8; 9]) 2 false) (λ _, [])
      = Ok batches
      ∧ (Z.of_nat 3 `div` 2 < Z.of_nat (length batches) ↔ Z.of_nat 3 `mod` 2 ≠ 0)
      ∧ (Z.of_nat 3 `mod` 2 = 0 → Z.of_nat 3 `div` 2 = Z.of_nat (length batches))
      ∧ (Z.of_nat 3 `mod` 2 ≠ 0 → Z.of_nat (length batches) = Z.of_nat 3 `div` 2 + 1).
Proof.
  refine (BatchSampler_len_floor
            (BatchSampler.__init__ (np.ints [7; 8; 9]) 2 false) (λ _, []) _ _).
  - cbn. lia.
  - cbn. discriminate.
Defined.

(** ** [ScviDataLoader] *)

Section loader_facts.
Import ScviDataLoader.
Context `{Externals}.

Implicit Types (adata : AnnData) (h : store) (spec : FieldSpec).

(** The body of the registration loop, for a fixed container. *)
Let check adata : string → result () := λ key,
  scvi ← dict.getitem (uns adata) "_scvi";
  registry ← dict.getitem scvi "data_registry";
  if bool_decide (key ∉ dom registry)
  then Raise (MissingFieldError key) else Ok ().

Lemma check_unfold adata meta reg (k : string) :
  uns adata !! "_scvi" = Some meta →
  meta !! "data_registry" = Some reg →
  check adata k
  = if bool_decide (k ∉ dom reg) then Raise (MissingFieldError k) else Ok ().
Proof.
  intros Hmeta Hreg. unfold check, dict.getitem.
  rewrite Hmeta. cbn [mbind result_bind]. by rewrite Hreg.
Qed.

Lemma check_all_registered adata meta reg (keys : list string) :
  uns adata !! "_scvi" = Some meta →
  meta !! "data_registry" = Some reg →
  Forall (λ k, is_Some (reg !! k)) keys →
  dict.for_each keys (check adata) = Ok ().
Proof.
  intros Hmeta Hreg. induction 1 as [|k keys Hk _ IH]; [done|].
  cbn [dict.for_each]. rewrite (check_unfold _ _ _ _ Hmeta Hreg).
  rewrite bool_decide_eq_false_2; [exact IH|].
  intros Hn. by apply Hn, elem_of_dom.
Qed.

Lemma check_first_missing adata meta reg (keys : list string) :
  uns adata !! "_scvi" = Some meta →
  meta !! "data_registry" = Some reg →
  Exists (λ k, reg !! k = None) keys →
  ∃ k, k ∈ keys ∧ reg !! k = None
       ∧ dict.for_each keys (check adata) = Raise (MissingFieldError k).
Proof.
  intros Hmeta Hreg. induction keys as [|k keys IH]; intros Hex.
  { by apply Exists_nil in Hex. }
  cbn [dict.for_each]. rewrite (check_unfold _ _ _ _ Hmeta Hreg).
  destruct (reg !! k) as [e|] eqn:Hk.
  - rewrite bool_decide_eq_false_2.
    2:{ intros Hn. apply Hn, elem_of_dom. by rewrite Hk. }
    apply Exists_cons in Hex as [Hex|Hex]; [congruence|].
    destruct (IH Hex) as (k' & Hin & Hnone & Hrun).
    exists k'. split; [by right|]. done.
  - rewrite bool_decide_eq_true_2.
    2:{ by apply not_elem_of_dom. }
    exists k. split; [by left|]. done.
Qed.

(** The store after [copy.copy] and [update]: one new dictionary, the copy
    with the two entries overridden. *)
Lemma store_after_update h (kwl : loc) (smp : BatchSampler.t) :
  let l' := fresh (dom h) in
  let d := default ∅ (h !! kwl) in
  <[l' := foldl (λ (m : gmap string kwarg) kv, <[kv.1 := kv.2]> m)
            (default ∅ (<[l' := d]> h !! l'))
            [("sampler", KwSampler smp); ("batch_size", KwNone)]]>
    (<[l' := d]> h)
  = <[l' := <["batch_size" := KwNone]> (<["sampler" := KwSampler smp]> d)]> h.
Proof.
  intros l' d. rewrite lookup_insert_eq, insert_insert_eq. done.
Qed.

(** The dictionary unpacked into [DataLoader.__init__]. *)
Let passed h (kwl : loc) (smp : BatchSampler.t) : gmap string kwarg :=
  <["batch_size" := KwNone]>
    (<["sampler" := KwSampler smp]> (default ∅ (h !! kwl))).

(** The sampler configuration chosen for the given [indices] argument. *)
Let chosen (shuffle : bool) (indices0 : option index_arg) (batch_size : Z)
    (ds : ScviDataset) : sampler_kwargs_t :=
  {| sk_indices := match indices0 with
                   | Some i => positions i
                   | None => np.ints (np.arange (ScviDataset_len ds))
                   end;
     sk_batch_size := batch_size;
     sk_shuffle := match indices0 with Some _ => true | None => shuffle end |}.

Ltac run_init a :=
  unfold __init__, mbind, io_bind, lift, mret, io_ret, copy_copy, update, deref;
  change (λ key : string, result_bind _ _ _ _) with (check a).

(** What a successful construction has done. *)
Lemma init_ok_inv adata shuffle indices0 use_cuda0 batch_size kwl daa h ld h' :
  __init__ adata shuffle indices0 use_cuda0 batch_size kwl daa h = (Ok ld, h') →
  is_Some (uns adata !! "_scvi")
  ∧ _data_and_attributes ld = default default_data_and_attributes daa
  ∧ dict.for_each (_data_and_attributes ld).*1 (check adata) = Ok ()
  ∧ ScviDataset_init adata daa = Ok (dataset ld)
  ∧ to_monitor ld = []
  ∧ use_cuda ld = use_cuda0
  ∧ indices ld = positions <$> indices0
  ∧ sampler_kwargs ld = chosen shuffle indices0 batch_size (dataset ld)
  ∧ data_loader_kwargs ld = fresh (dom h)
  ∧ DataLoader_init (dataset ld)
      (passed h kwl (make_sampler (sampler_kwargs ld))) = Ok ()
  ∧ h' = <[fresh (dom h) := passed h kwl (make_sampler (sampler_kwargs ld))]> h.
Proof.
  run_init adata. case_bool_decide as Hscvi; [done|].
  apply elem_of_dom in Hscvi.
  destruct (dict.for_each _ _) as [[]|e] eqn:Hcheck; [|done].
  destruct (ScviDataset_init adata daa) as [ds|e] eqn:Hds; [|done].
  unfold chosen, passed.
  destruct indices0 as [i|], shuffle, daa as [spec|]; cbn beta iota;
    rewrite store_after_update, lookup_insert_eq; cbn [default from_option id];
    (destruct (DataLoader_init ds _) as [[]|e] eqn:Hdl; [|done]);
    intros [= <- <-]; cbn; by rewrite ?Hdl.
Qed.

(** Construction changes no dictionary that was in the store before. *)
Lemma init_frame adata shuffle indices0 use_cuda0 batch_size kwl daa h (l : loc) :
  is_Some (h !! l) →
  (__init__ adata shuffle indices0 use_cuda0 batch_size kwl daa h).2 !! l
  = h !! l.
Proof.
  intros Hl.
  assert (fresh (dom h) ≠ l) as Hfresh.
  { intros <-. apply elem_of_dom in Hl. by apply is_fresh in Hl. }
  run_init adata. case_bool_decide; [done|].
  destruct (dict.for_each _ _) as [[]|e]; [|done].
  destruct (ScviDataset_init adata daa) as [ds|e]; [|done].
  destruct indices0 as [i|], shuffle; cbn beta iota;
    rewrite store_after_update;
    (destruct (DataLoader_init ds _) as [[]|e]);
    cbn [snd]; by rewrite lookup_insert_ne.
Qed.

(** Construction goes through once both checks pass and the collaborators
    accept. *)
Lemma init_ok_intro adata shuffle indices0 use_cuda0 batch_size kwl daa h meta reg ds :
  uns adata !! "_scvi" = Some meta →
  meta !! "data_registry" = Some reg →
  Forall (λ k, is_Some (reg !! k)) (default default_data_and_attributes daa).*1 →
  ScviDataset_init adata daa = Ok ds →
  DataLoader_init ds
    (passed h kwl (make_sampler (chosen shuffle indices0 batch_size ds))) = Ok () →
  ∃ ld,
    __init__ adata shuffle indices0 use_cuda0 batch_size kwl daa h
    = (Ok ld,
       <[fresh (dom h) :=
           passed h kwl (make_sampler (chosen shuffle indices0 batch_size ds))]> h)
    ∧ dataset ld = ds.
Proof.
  intros Hmeta Hreg Hkeys Hds Hdl. run_init adata.
  rewrite bool_decide_eq_false_2.
  2:{ intros Hn. apply Hn, elem_of_dom. by rewrite Hmeta. }
  assert (dict.for_each (default default_data_and_attributes daa).*1 (check adata)
          = Ok ()) as Hcheck by by eapply check_all_registered.
  unfold chosen, passed in *.
  destruct daa as [spec|]; cbn [default from_option id] in Hcheck;
    rewrite Hcheck, Hds;
    destruct indices0 as [i|], shuffle; cbn beta iota;
    rewrite store_after_update, lookup_insert_eq; cbn [default from_option id];
    rewrite Hdl; eexists; split; reflexivity.
Qed.

End loader_facts.

Lemma filter_fmap {A B} (f : A → B) (P : B → Prop) `{∀ x, Decision (P x)}
    (l : list A) :
  filter P (f <$> l) = f <$> filter (P ∘ f) l.
Proof.
  induction l as [|x l IH]; [done|].
  rewrite fmap_cons, !filter_cons. cbn [compose].
  destruct (decide (P (f x))); by rewrite IH.
Qed.

Lemma np_where_from_filter (mask : list bool) (i : Z) :
  np.where_from i mask
  = (λ k, i + Z.of_nat k)
      <$> filter (λ k, mask !! k = Some true) (seq 0 (length mask)).
Proof.
  revert i. induction mask as [|b mask IH]; intros i; [done|].
  cbn [np.where_from length seq]. rewrite <- fmap_S_seq, filter_cons.
  rewrite filter_fmap, IH.
  erewrite (list_filter_iff (_ ∘ S) (λ k, mask !! k = Some true)) by done.
  assert ((λ k, i + 1 + Z.of_nat k) <$>
            filter (λ k, mask !! k = Some true) (seq 0 (length mask))
          = (λ k, i + Z.of_nat k) <$> (S <$>
            filter (λ k, mask !! k = Some true) (seq 0 (length mask))))
    as Htail.
  { rewrite <- list_fmap_compose. apply list_fmap_ext. intros _ k _. cbn. lia. }
  destruct b; cbn [lookup list_lookup].
  - rewrite decide_True by done. rewrite fmap_cons. f_equal; [lia|exact Htail].
  - rewrite decide_False by done. exact Htail.
Qed.

(** [np.where] on a mask returns the positions at which the mask is true. *)
Lemma np_where_true_positions (mask : list bool) :
  np.where_ mask = ScviDataLoader.true_positions mask.
Proof.
  unfold np.where_, ScviDataLoader.true_positions.
  rewrite np_where_from_filter. apply list_fmap_ext. intros; lia.
Qed.

Lemma elem_of_true_positions (mask : list bool) (z : Z) :
  z ∈ ScviDataLoader.true_positions mask
  ↔ 0 ≤ z ∧ mask !! Z.to_nat z = Some true.
Proof.
  unfold ScviDataLoader.true_positions. rewrite list_elem_of_fmap. split.
  - intros (k & -> & Hk%list_elem_of_filter). rewrite Nat2Z.id. split; [lia|].
    by destruct Hk.
  - intros [Hz Hm]. exists (Z.to_nat z). split; [lia|].
    apply list_elem_of_filter. split; [done|].
    apply elem_of_seq. apply lookup_lt_Some in Hm. lia.
Qed.

Example init_default_call :
  let out := ScviDataLoader.__init__ (H := ScviDataLoader.recording)
               Fixtures.adata_setup false None true 128 1%positive None
               Fixtures.caller_store in
  ScviDataLoader.sampler_kwargs <$> out.1
  = Ok {| ScviDataLoader.sk_indices := np.ints [0; 1; 2; 3];
          ScviDataLoader.sk_batch_size := 128;
          ScviDataLoader.sk_shuffle := false |}
  ∧ ScviDataLoader.indices <$> out.1 = Ok None
  ∧ ScviDataLoader.data_loader_kwargs <$> out.1 = Ok 2%positive.
Proof. vm_compute. done. Qed.

Example init_mask_call :
  let out := ScviDataLoader.__init__ (H := ScviDataLoader.recording)
               Fixtures.adata_setup false
               (Some (ScviDataLoader.BoolArray [true; false; true; true]))
               true 2 1%positive None Fixtures.caller_store in
  ScviDataLoader.sampler_kwargs <$> out.1
  = Ok {| ScviDataLoader.sk_indices := np.ints [0; 2; 3];
          ScviDataLoader.sk_batch_size := 2;
          ScviDataLoader.sk_shuffle := true |}
  ∧ ScviDataLoader.indices <$> out.1 = Ok (Some (np.ints [0; 2; 3])).
Proof. vm_compute. done. Qed.

Example init_raw_container :
  (ScviDataLoader.__init__ (H := ScviDataLoader.recording)
     Fixtures.adata_raw false None true 128 1%positive None
     Fixtures.caller_store).1
  = Raise (ValueError "Please run setup_anndata() on your anndata object first.").
Proof. vm_compute. done. Qed.

Example init_unregistered_field :
  (ScviDataLoader.__init__ (H := ScviDataLoader.recording)
     Fixtures.adata_setup false None true 128 1%positive
     (Some [("X", ScviDataLoader.float32); ("cat_covs", ScviDataLoader.int64)])
     Fixtures.caller_store).1
  = Raise (ValueError
      "cat_covs required for model but not included when setup_anndata was run").
Proof. vm_compute. done. Qed.

(** The recording collaborators accept every call on the prepared container
    whose field specification is registered. *)
Lemma recording_run (shuffle : bool)
    (indices0 : option ScviDataLoader.index_arg) (use_cuda0 : bool)
    (batch_size : Z) (daa : option ScviDataLoader.FieldSpec) :
  Forall (λ k, is_Some (Fixtures.registry6 !! k))
         (default ScviDataLoader.default_data_and_attributes daa).*1 →
  ∃ ld h',
    ScviDataLoader.__init__ (H := ScviDataLoader.recording)
      Fixtures.adata_setup shuffle indices0 use_cuda0 batch_size 1%positive daa
      Fixtures.caller_store = (Ok ld, h').
Proof.
  intros Hkeys.
  edestruct (init_ok_intro (H := ScviDataLoader.recording) Fixtures.adata_setup
               shuffle indices0 use_cuda0 batch_size 1%positive daa
               Fixtures.caller_store
               {[ "data_registry" := Fixtures.registry6 ]} Fixtures.registry6
               (Fixtures.adata_setup, daa)) as (ld & E & _);
    [reflexivity|reflexivity|exact Hkeys|reflexivity|reflexivity|eauto].
Defined.

Lemma registry6_defaults :
  Forall (λ k, is_Some (Fixtures.registry6 !! k))
         (default ScviDataLoader.default_data_and_attributes None).*1.
Proof. repeat constructor; vm_compute; eauto. Defined.

Section loader_call.
Import ScviDataLoader.
Context `{Externals}.

(** The registration loop passes when every key it visits is registered;
    with no key to visit it does not read the registry at all. *)
Lemma check_passes (adata : AnnData) (keys : list string) :
  (∀ k, k ∈ keys →
        ∃ meta reg, uns adata !! "_scvi" = Some meta
                    ∧ meta !! "data_registry" = Some reg
                    ∧ is_Some (reg !! k)) →
  dict.for_each keys (λ key,
    scvi ← dict.getitem (uns adata) "_scvi";
    registry ← dict.getitem scvi "data_registry";
    if bool_decide (key ∉ dom registry)
    then Raise (MissingFieldError key) else Ok ())
  = Ok ().
Proof.
  induction keys as [|k keys IH]; intros Hkeys; [done|].
  cbn [dict.for_each].
  destruct (Hkeys k) as (meta & reg & Hmeta & Hreg & Hk); [by left|].
  assert ((scvi ← dict.getitem (uns adata) "_scvi";
           registry ← dict.getitem scvi "data_registry";
           if bool_decide (k ∉ dom registry)
           then Raise (MissingFieldError k) else Ok ())
          = Ok ()) as ->.
  { unfold dict.getitem. rewrite Hmeta. cbn [mbind result_bind].
    rewrite Hreg. cbn [mbind result_bind].
    rewrite bool_decide_eq_false_2; [done|].
    intros Hn. by apply Hn, elem_of_dom. }
  cbn [mbind result_bind]. apply IH. intros k' Hk'. apply Hkeys. by right.
Qed.

(** Once both checks pass and the dataset view is built, the constructor
    copies the caller's dictionary, overrides ["sampler"] and ["batch_size"]
    in the copy, and calls [DataLoader.__init__] on the dataset and the copy:
    its outcome is the outcome of that call. *)
Lemma init_reaches_dataloader
    (adata : AnnData) (shuffle : bool) (indices0 : option index_arg)
    (use_cuda0 : bool) (batch_size : Z) (kwl : loc)
    (daa : option FieldSpec) (h : store) (ds : ScviDataset) :
  is_Some (uns adata !! "_scvi") →
  (∀ k, k ∈ (default default_data_and_attributes daa).*1 →
        ∃ meta reg, uns adata !! "_scvi" = Some meta
                    ∧ meta !! "data_registry" = Some reg
                    ∧ is_Some (reg !! k)) →
  ScviDataset_init adata daa = Ok ds →
  ∃ ld kw,
    dataset ld = ds
    ∧ data_loader_kwargs ld = fresh (dom h)
    ∧ kw = <["batch_size" := KwNone]>
             (<["sampler" := KwSampler (make_sampler (sampler_kwargs ld))]>
                (default ∅ (h !! kwl)))
    ∧ __init__ adata shuffle indices0 use_cuda0 batch_size kwl daa h
      = (match DataLoader_init ds kw with
         | Ok _ => Ok ld
         | Raise e => Raise e
         end,
         <[fresh (dom h) := kw]> h).
Proof.
  intros Hscvi Hkeys Hds.
  pose proof (check_passes adata _ Hkeys) as Hcheck.
  eexists {| _data_and_attributes := default default_data_and_attributes daa;
             dataset := ds; to_monitor := []; use_cuda := use_cuda0;
             indices := positions <$> indices0;
             sampler_kwargs :=
               {| sk_indices :=
                    match indices0 with
                    | Some i => positions i
                    | None => np.ints (np.arange (ScviDataset_len ds))
                    end;
                  sk_batch_size := batch_size;
                  sk_shuffle :=
                    match indices0 with Some _ => true | None => shuffle end |};
             data_loader_kwargs := fresh (dom h) |}, _.
  split; [reflexivity|]. split; [reflexivity|]. split; [reflexivity|].
  cbn [dataset sampler_kwargs].
  unfold __init__, mbind, io_bind, lift, mret, io_ret, copy_copy, update, deref.
  rewrite bool_decide_eq_false_2.
  2:{ intros Hn. by apply Hn, elem_of_dom. }
  destruct daa as [spec|]; cbn [default from_option id] in Hcheck;
    unfold mbind in Hcheck; rewrite Hcheck, Hds;
    destruct indices0 as [i|], shuffle; cbn beta iota;
    rewrite store_after_update, lookup_insert_eq; cbn [default from_option id];
    by destruct (DataLoader_init ds _) as [[]|e].
Qed.

End loader_call.

Section loader_claims.
Import ScviDataLoader.

(** C3, as amended.  Construction raises the not-configured error when the
    container has no ["_scvi"] entry, and the missing-field error, naming a
    key of the resolved field specification that the registry
    [uns["_scvi"]["data_registry"]] lacks, when that registry is present and
    there is such a key; neither depends on the collaborators, and both
    leave the store as it was.  With the registry present and every key of
    the resolved specification registered, both checks pass and construction
    returns a loader whenever the dataset view and the underlying
    [DataLoader] accept their arguments.  All of this is the outcome of
    [__init__] itself: no pass over the data is involved. *)
Theorem ScviDataLoader_init_checks `{Externals}
    (adata : AnnData) (shuffle : bool) (indices0 : option index_arg)
    (use_cuda0 : bool) (batch_size : Z) (kwl : loc)
    (daa : option FieldSpec) (h : store) :
  let spec := default default_data_and_attributes daa in
  let init := __init__ adata shuffle indices0 use_cuda0 batch_size kwl daa h in
  (uns adata !! "_scvi" = None → init = (Raise NotConfiguredError, h))
  ∧ (∀ meta reg,
       uns adata !! "_scvi" = Some meta →
       meta !! "data_registry" = Some reg →
       (∃ k, k ∈ spec.*1 ∧ reg !! k = None) →
       ∃ k, k ∈ spec.*1 ∧ reg !! k = None
            ∧ init = (Raise (MissingFieldError k), h))
  ∧ (∀ meta reg ds,
       uns adata !! "_scvi" = Some meta →
       meta !! "data_registry" = Some reg →
       (∀ k, k ∈ spec.*1 → is_Some (reg !! k)) →
       ScviDataset_init adata daa = Ok ds →
       (∀ smp, DataLoader_init ds
                 (<["batch_size" := KwNone]>
                    (<["sampler" := KwSampler smp]> (default ∅ (h !! kwl))))
               = Ok ()) →
       ∃ ld h', init = (Ok ld, h')).
Proof.
  intros spec init. subst init. split; [|split].
  - intros Hnone.
    unfold __init__, mbind, io_bind, lift.
    rewrite bool_decide_eq_true_2; [done|]. by apply not_elem_of_dom.
  - intros meta reg Hmeta Hreg Hex.
    destruct (check_first_missing adata meta reg spec.*1 Hmeta Hreg)
      as (k & Hin & Hnone & Hrun).
    { apply Exists_exists. destruct Hex as (k & ? & ?). eauto. }
    exists k. split; [done|]. split; [done|].
    unfold __init__, mbind at 1 2, io_bind, lift.
    rewrite bool_decide_eq_false_2.
    2:{ intros Hn. apply Hn, elem_of_dom. by rewrite Hmeta. }
    subst spec. destruct daa; cbn [default from_option id] in Hrun;
      by rewrite Hrun.
  - intros meta reg ds Hmeta Hreg Hall Hds Hdl.
    edestruct (init_ok_intro adata shuffle indices0 use_cuda0 batch_size kwl daa h)
      as (ld & Hld & _); [done|done| |done|apply Hdl|eauto].
    by apply Forall_forall.
Qed.

Lemma ScviDataLoader_init_checks_witness :
  __init__ (H := recording) Fixtures.adata_raw false None true 128 1%positive
    None Fixtures.caller_store
  = (Raise NotConfiguredError, Fixtures.caller_store)
  ∧ (∃ k, k ∈ [("X", float32); ("cat_covs", int64)].*1
          ∧ Fixtures.registry6 !! k = None
          ∧ __init__ (H := recording) Fixtures.adata_setup false None true 128
              1%positive (Some [("X", float32); ("cat_covs", int64)])
              Fixtures.caller_store
            = (Raise (MissingFieldError k), Fixtures.caller_store))
  ∧ (∃ ld h',
       __init__ (H := recording) Fixtures.adata_setup false None true 128
         1%positive None Fixtures.caller_store = (Ok ld, h')).
Proof.
  split; [|split].
  - pose proof (ScviDataLoader_init_checks (H := recording) Fixtures.adata_raw
                  false None true 128 1%positive None Fixtures.caller_store) as T.
    cbv zeta in T. destruct T as (T & _ & _). apply T. reflexivity.
  - pose proof (ScviDataLoader_init_checks (H := recording) Fixtures.adata_setup
                  false None true 128 1%positive
                  (Some [("X", float32); ("cat_covs", int64)])
                  Fixtures.caller_store) as T.
    cbv zeta in T. destruct T as (_ & T & _).
    apply (T {[ "data_registry" := Fixtures.registry6 ]} Fixtures.registry6).
    + reflexivity.
    + reflexivity.
    + exists "cat_covs". split; [|reflexivity].
      apply list_elem_of_In. right. left. reflexivity.
  - pose proof (ScviDataLoader_init_checks (H := recording) Fixtures.adata_setup
                  false None true 128 1%positive None Fixtures.caller_store) as T.
    cbv zeta in T. destruct T as (_ & _ & T).
    apply (T {[ "data_registry" := Fixtures.registry6 ]} Fixtures.registry6
             (Fixtures.adata_setup, None)).
    + reflexivity.
    + reflexivity.
    + intros k Hk. apply list_elem_of_In in Hk. cbn in Hk.
      destruct Hk as [<-|[<-|[<-|[<-|[<-|[]]]]]]; vm_compute; eauto.
    + reflexivity.
    + intros smp. reflexivity.
Defined.

(** C3 as first stated fails on a container that has the ["_scvi"] entry but
    no ["data_registry"] in it: no registry is attached, yet construction
    with the default field specification raises [KeyError], not the
    not-configured error. *)
Lemma ScviDataLoader_scvi_without_registry :
  let adata := {| uns := {[ "_scvi" := ∅ ]}; n_obs := 4 |} in
  let out := __init__ (H := recording) adata false None true 128 1%positive
               None Fixtures.caller_store in
  (uns adata !! "_scvi") ≫= (λ meta, meta !! "data_registry") = None
  ∧ out.1 = Raise (KeyError "data_registry")
  ∧ out.1 ≠ Raise NotConfiguredError.
Proof. vm_compute. split; [done|]. split; [done|]. discriminate. Qed.

(** C4.  The sampler the loader builds (the one stored under ["sampler"] in
    the configuration it keeps) shuffles whenever explicit indices are given,
    whatever the caller's [shuffle] argument; without explicit indices it
    follows the caller's flag and ranges over [0, len(dataset)). *)
Theorem ScviDataLoader_shuffle_policy `{Externals}
    (adata : AnnData) (shuffle : bool) (indices0 : option index_arg)
    (use_cuda0 : bool) (batch_size : Z) (kwl : loc)
    (daa : option FieldSpec) (h h' : store) (ld : t) :
  __init__ adata shuffle indices0 use_cuda0 batch_size kwl daa h = (Ok ld, h') →
  let sampler := make_sampler (sampler_kwargs ld) in
  default ∅ (h' !! data_loader_kwargs ld) !! "sampler" = Some (KwSampler sampler)
  ∧ BatchSampler.batch_size sampler = batch_size
  ∧ match indices0 with
    | Some _ => BatchSampler.shuffle sampler = true
    | None =>
        BatchSampler.shuffle sampler = shuffle
        ∧ BatchSampler.indices sampler
          = np.ints (np.arange (ScviDataset_len (dataset ld)))
    end.
Proof.
  intros Hinit sampler. subst sampler.
  destruct (init_ok_inv _ _ _ _ _ _ _ _ _ _ Hinit)
    as (_ & _ & _ & _ & _ & _ & _ & Hsk & Hl & _ & ->).
  split.
  { rewrite Hl, lookup_insert_eq. cbn [default from_option id].
    rewrite lookup_insert_ne by done. by rewrite lookup_insert_eq. }
  rewrite Hsk. by destruct indices0.
Qed.

Lemma ScviDataLoader_shuffle_policy_witness :
  (∃ ld h',
     __init__ (H := recording) Fixtures.adata_setup false
       (Some (IntList [3; 1])) true 2 1%positive None Fixtures.caller_store
     = (Ok ld, h')
     ∧ BatchSampler.shuffle (make_sampler (sampler_kwargs ld)) = true)
  ∧ (∃ ld h',
       __init__ (H := recording) Fixtures.adata_setup false None true 2
         1%positive None Fixtures.caller_store = (Ok ld, h')
       ∧ BatchSampler.shuffle (make_sampler (sampler_kwargs ld)) = false
       ∧ BatchSampler.indices (make_sampler (sampler_kwargs ld))
         = np.ints (np.arange (ScviDataset_len (dataset ld)))).
Proof.
  split.
  - destruct (recording_run false (Some (IntList [3; 1])) true 2 None
                registry6_defaults) as (ld & h' & E).
    exists ld, h'. split; [exact E|].
    exact (proj2 (proj2 (ScviDataLoader_shuffle_policy _ _ _ _ _ _ _ _ _ _ E))).
  - destruct (recording_run false None true 2 None registry6_defaults)
      as (ld & h' & E).
    exists ld, h'. split; [exact E|].
    exact (proj2 (proj2 (ScviDataLoader_shuffle_policy _ _ _ _ _ _ _ _ _ _ E))).
Defined.

(** Whatever the collaborators are, the dataset view is built from the
    caller's [data_and_attributes] argument, not from the resolved
    specification kept in [_data_and_attributes]. *)
Lemma init_dataset_argument `{Externals}
    (adata : AnnData) (shuffle : bool) (indices0 : option index_arg)
    (use_cuda0 : bool) (batch_size : Z) (kwl : loc)
    (daa : option FieldSpec) (h h' : store) (ld : t) :
  __init__ adata shuffle indices0 use_cuda0 batch_size kwl daa h = (Ok ld, h') →
  ScviDataset_init adata daa = Ok (dataset ld)
  ∧ _data_and_attributes ld = default default_data_and_attributes daa.
Proof.
  intros Hinit.
  destruct (init_ok_inv _ _ _ _ _ _ _ _ _ _ Hinit) as (_ & Hspec & _ & Hds & _).
  done.
Qed.

(** C5.  A loader constructed without a field specification resolves it to
    the five default fields with their dtypes, but the dataset view it builds
    is given [getitem_tensors=None], the caller's absent argument, and not the
    resolved specification: on the prepared container the recorded constructor
    arguments of the view are the container and [None]. *)
Theorem ScviDataLoader_default_spec_not_forwarded :
  ∃ ld h',
    __init__ (H := recording) Fixtures.adata_setup false None true 128
      1%positive None Fixtures.caller_store = (Ok ld, h')
    ∧ _data_and_attributes ld
      = [("X", float32); ("batch", int64); ("local_l_mean", float32);
         ("local_l_var", float32); ("labels", int64)]
    ∧ (dataset ld : AnnData * option FieldSpec) = (Fixtures.adata_setup, None)
    ∧ (dataset ld : AnnData * option FieldSpec)
      ≠ (Fixtures.adata_setup, Some (_data_and_attributes ld)).
Proof.
  destruct (recording_run false None true 128 None registry6_defaults)
    as (ld & h' & E).
  exists ld, h'. split; [exact E|].
  destruct (init_dataset_argument _ _ _ _ _ _ _ _ _ _ E) as [Hds Hspec].
  split; [exact Hspec|].
  assert ((dataset ld : AnnData * option FieldSpec) = (Fixtures.adata_setup, None))
    as Hview by (cbn in Hds; congruence).
  split; [exact Hview|]. rewrite Hview. intros [=].
Qed.



Example true_positions_example :
  true_positions [true; false; true; true] = [0; 2; 3].
Proof. reflexivity. Qed.


(** C9.  Construction leaves the caller's keyword dictionary, and every other
    dictionary that was in the store, exactly as it was, whether it returns
    or raises.  Whenever both checks pass and the dataset view is built, the
    constructor makes a new dictionary, distinct from the caller's, and calls
    the underlying [DataLoader] on the dataset and on that dictionary, in
    which ["sampler"] is the loader's own sampler and ["batch_size"] is
    [None], whatever the caller had under those keys, every other entry being
    the caller's; the constructor returns the loader when that call returns
    and raises what that call raises. *)
Theorem ScviDataLoader_kwargs_frame `{Externals}
    (adata : AnnData) (shuffle : bool) (indices0 : option index_arg)
    (use_cuda0 : bool) (batch_size : Z) (kwl : loc)
    (daa : option FieldSpec) (h : store) (d : gmap string kwarg) :
  h !! kwl = Some d →
  let out := __init__ adata shuffle indices0 use_cuda0 batch_size kwl daa h in
  let spec := default default_data_and_attributes daa in
  out.2 !! kwl = Some d
  ∧ (∀ l, is_Some (h !! l) → out.2 !! l = h !! l)
  ∧ (∀ ld, out.1 = Ok ld →
      ∃ kw,
        data_loader_kwargs ld ≠ kwl
        ∧ out.2 !! data_loader_kwargs ld = Some kw
        ∧ DataLoader_init (dataset ld) kw = Ok ()
        ∧ kw !! "sampler" = Some (KwSampler (make_sampler (sampler_kwargs ld)))
        ∧ kw !! "batch_size" = Some KwNone
        ∧ ∀ k, k ≠ "sampler" → k ≠ "batch_size" → kw !! k = d !! k)
  ∧ (∀ ds,
       is_Some (uns adata !! "_scvi") →
       (∀ k, k ∈ spec.*1 →
             ∃ meta reg, uns adata !! "_scvi" = Some meta
                         ∧ meta !! "data_registry" = Some reg
                         ∧ is_Some (reg !! k)) →
       ScviDataset_init adata daa = Ok ds →
       ∃ ld kw,
         dataset ld = ds
         ∧ data_loader_kwargs ld ≠ kwl
         ∧ kw !! "sampler" = Some (KwSampler (make_sampler (sampler_kwargs ld)))
         ∧ kw !! "batch_size" = Some KwNone
         ∧ (∀ k, k ≠ "sampler" → k ≠ "batch_size" → kw !! k = d !! k)
         ∧ out = (match DataLoader_init ds kw with
                  | Ok _ => Ok ld
                  | Raise e => Raise e
                  end,
                  <[data_loader_kwargs ld := kw]> h)).
Proof.
  intros Hd out spec. subst out spec.
  assert (fresh (dom h) ≠ kwl) as Hfresh.
  { intros Heq.
    assert (kwl ∈ dom h) as Hin by (apply elem_of_dom; eauto).
    rewrite <- Heq in Hin. by apply is_fresh in Hin. }
  split; [|split; [|split]].
  - rewrite init_frame by eauto. done.
  - intros l Hl. by apply init_frame.
  - intros ld Hld.
    destruct (__init__ _ _ _ _ _ _ _ _) as [r h'] eqn:Hinit.
    cbn [fst snd] in *. subst r.
    destruct (init_ok_inv _ _ _ _ _ _ _ _ _ _ Hinit)
      as (_ & _ & _ & _ & _ & _ & _ & _ & Hl & Hdl & ->).
    rewrite Hd in Hdl. cbn [default from_option id] in Hdl.
    eexists. split; [|split; [|split; [exact Hdl|]]].
    + by rewrite Hl.
    + rewrite Hl, lookup_insert_eq, Hd. done.
    + split; [|split].
      * rewrite lookup_insert_ne by done. by rewrite lookup_insert_eq.
      * by rewrite lookup_insert_eq.
      * intros k Hk1 Hk2. by rewrite !lookup_insert_ne.
  - intros ds Hscvi Hkeys Hds.
    destruct (init_reaches_dataloader adata shuffle indices0 use_cuda0
                batch_size kwl daa h ds Hscvi Hkeys Hds)
      as (ld & kw & Hld & Hl & Hkw & Hout).
    rewrite Hd in Hkw. cbn [default from_option id] in Hkw.
    exists ld, kw. split; [exact Hld|]. split; [by rewrite Hl|].
    split; [|split; [|split]].
    + rewrite Hkw, lookup_insert_ne by done. by rewrite lookup_insert_eq.
    + by rewrite Hkw, lookup_insert_eq.
    + intros k Hk1 Hk2. by rewrite Hkw, !lookup_insert_ne.
    + by rewrite Hl.
Qed.

(** On the prepared container the call goes through: the caller's own
    ["sampler"] and ["batch_size"] are overridden in what [DataLoader]
    receives, and its ["num_workers"] is passed on.  With a [DataLoader] that
    refuses the caller's [shuffle=True] the constructor raises that refusal,
    having passed the same two entries. *)
Lemma ScviDataLoader_kwargs_frame_witness :
  (∃ (ld : @t recording) (kw : gmap string kwarg),
     __init__ (H := recording) Fixtures.adata_setup false None true 128
       1%positive None Fixtures.caller_store
     = (Ok ld, <[data_loader_kwargs ld := kw]> Fixtures.caller_store)
     ∧ data_loader_kwargs ld ≠ 1%positive
     ∧ kw !! "sampler" = Some (KwSampler (make_sampler (sampler_kwargs ld)))
     ∧ kw !! "batch_size" = Some KwNone
     ∧ kw !! "num_workers" = Some (KwInt 2))
  ∧ (∃ (ld : @t recording_strict) (kw : gmap string kwarg),
       __init__ (H := recording_strict) Fixtures.adata_setup false None true 128
         1%positive None Fixtures.shuffling_store
       = (Raise (ValueError "sampler option is mutually exclusive with shuffle"),
          <[data_loader_kwargs ld := kw]> Fixtures.shuffling_store)
       ∧ kw !! "sampler" = Some (KwSampler (make_sampler (sampler_kwargs ld)))
       ∧ kw !! "batch_size" = Some KwNone).
Proof.
  assert (∀ k, k ∈ (default default_data_and_attributes None).*1 →
            ∃ meta reg, uns Fixtures.adata_setup !! "_scvi" = Some meta
                        ∧ meta !! "data_registry" = Some reg
                        ∧ is_Some (reg !! k)) as Hkeys.
  { intros k Hk.
    exists {[ "data_registry" := Fixtures.registry6 ]}, Fixtures.registry6.
    split; [reflexivity|]. split; [reflexivity|].
    by apply (proj1 (Forall_forall _ _) registry6_defaults). }
  assert (is_Some (uns Fixtures.adata_setup !! "_scvi")) as Hscvi.
  { exists {[ "data_registry" := Fixtures.registry6 ]}. reflexivity. }
  split.
  - pose proof (ScviDataLoader_kwargs_frame (H := recording) Fixtures.adata_setup
                  false None true 128 1%positive None Fixtures.caller_store
                  Fixtures.caller_kwargs eq_refl) as T.
    cbv zeta in T. destruct T as (_ & _ & _ & T).
    destruct (T (Fixtures.adata_setup, None) Hscvi Hkeys eq_refl)
      as (ld & kw & _ & Hne & Hs & Hb & Hother & Hout).
    exists ld, kw. split; [exact Hout|]. split; [exact Hne|].
    split; [exact Hs|]. split; [exact Hb|].
    rewrite Hother by done. reflexivity.
  - pose proof (ScviDataLoader_kwargs_frame (H := recording_strict)
                  Fixtures.adata_setup false None true 128 1%positive None
                  Fixtures.shuffling_store Fixtures.shuffling_kwargs eq_refl)
      as T.
    cbv zeta in T. destruct T as (_ & _ & _ & T).
    destruct (T (Fixtures.adata_setup, None) Hscvi Hkeys eq_refl)
      as (ld & kw & _ & _ & Hs & Hb & Hother & Hout).
    exists ld, kw. split; [|split; [exact Hs|exact Hb]].
    rewrite Hout. cbn [DataLoader_init recording_strict].
    rewrite Hother by done. reflexivity.
Defined.

End loader_claims.

(** ** [SCVILoss] *)

Lemma float_add_zero_l (x : float.t) :
  float.add float.zero x
  = match x with SpecFloat.S754_zero _ => float.zero | _ => x end.
Proof. by destruct x as [[]|[]| |]. Qed.

Lemma float_eqb_refl (x : float.t) :
  float.is_nan x = false → float.eqb x x = true.
Proof.
  destruct x as [s|s| |s m e]; cbn; try done.
  - by destruct s.
  - intros _. unfold float.eqb, SpecFloat.SFeqb, SpecFloat.SFcompare.
    rewrite Z.compare_refl.
    change (Pos.compare_cont Eq m m) with (Pos.compare m m).
    rewrite Pos.compare_refl. by destruct s.
Qed.

(** A read of a single float term: [0.0 + x]. *)
Lemma sum_single (name : string) (x : float.t) :
  SCVILoss._get_dict_sum [(name, x)] = Ok (float.add float.zero x).
Proof. reflexivity. Qed.

(** On floats the loop never raises and adds left to right. *)
Lemma sum_values_float (acc : float.t) (values : list float.t) :
  SCVILoss.sum_values acc values = Ok (foldl float.add acc values).
Proof.
  revert acc. induction values as [|v values IH]; intros acc; [done|].
  cbn. apply IH.
Qed.

Section loss_claims.
Import SCVILoss.
Import float.

Example loss_bare_scalars :
  let o := __init__ (Bare f2_0) (Bare f3_0) (Bare f0_5) (Bare f0_1) in
  loss o = Ok f2_0 ∧ reconstruction_loss o = Ok f3_0
  ∧ kl_local o = Ok f0_5 ∧ kl_global o = Ok f0_1.
Proof. vm_compute. done. Qed.

Example loss_named_terms :
  reconstruction_loss
    (__init__ (Bare f2_0) (Dict [("a", f1_0); ("b", f1_5)]) (Bare f0_5) (Bare f0_1))
  = Ok f2_5.
Proof. vm_compute. done. Qed.

Example loss_none_read_raises :
  let o := __init__ (Bare None) (Bare (Some f3_0)) (Bare (Some f0_5))
                    (Bare (Some f0_1)) in
  _loss o = [("loss", None)]
  ∧ loss o = Raise (TypeError "unsupported operand type(s) for +")
  ∧ reconstruction_loss o = Ok (Some f3_0).
Proof. vm_compute. done. Qed.

Example loss_negative_zero :
  loss (__init__ (Bare neg_zero) (Bare f3_0) (Bare f0_5) (Bare f0_1)) = Ok zero
  ∧ eqb zero neg_zero = true.
Proof. vm_compute. done. Qed.

(** C7.  The constructor is a total function: it accepts every argument, of
    whatever kind of term, and stores a dictionary argument as it is and any
    other argument as the one-entry dictionary under the name of its
    parameter.  On float terms every read returns the sum of the terms of its
    category, added left to right from [0.0]; read back from a bare scalar
    [x] this is [0.0 + x], which is [x] itself (and [0.0] when [x] is a
    zero), hence equal to [x] under [==] unless [x] is a NaN.  With bare 2.0,
    3.0, 0.5 and 0.1 the four reads return 2.0, 3.0, 0.5 and 0.1, and the
    terms a = 1.0, b = 1.5 read as 2.5. *)
Theorem SCVILoss_reads_sum :
  (∀ (V : Type) (a b c d : arg V),
     let o := __init__ a b c d in
     _loss o
       = match a with Dict m => m | Bare v => [("loss", v)] end
     ∧ _reconstruction_loss o
       = match b with Dict m => m | Bare v => [("reconstruction_loss", v)] end
     ∧ _kl_local o
       = match c with Dict m => m | Bare v => [("kl_local", v)] end
     ∧ _kl_global o
       = match d with Dict m => m | Bare v => [("kl_global", v)] end)
  ∧ (∀ o : SCVILoss.t float.t,
       loss o = Ok (foldl add zero (_loss o).*2)
       ∧ reconstruction_loss o = Ok (foldl add zero (_reconstruction_loss o).*2)
       ∧ kl_local o = Ok (foldl add zero (_kl_local o).*2)
       ∧ kl_global o = Ok (foldl add zero (_kl_global o).*2))
  ∧ (∀ l r kl kg : float.t,
       let o := __init__ (Bare l) (Bare r) (Bare kl) (Bare kg) in
       let read x := match x with SpecFloat.S754_zero _ => zero | _ => x end in
       loss o = Ok (read l) ∧ reconstruction_loss o = Ok (read r)
       ∧ kl_local o = Ok (read kl) ∧ kl_global o = Ok (read kg)
       ∧ ∀ x, is_nan x = false → eqb (read x) x = true)
  ∧ (let o := __init__ (Bare f2_0) (Bare f3_0) (Bare f0_5) (Bare f0_1) in
     loss o = Ok f2_0 ∧ reconstruction_loss o = Ok f3_0
     ∧ kl_local o = Ok f0_5 ∧ kl_global o = Ok f0_1)
  ∧ (∀ l kl kg : arg float.t,
       reconstruction_loss (__init__ l (Dict [("a", f1_0); ("b", f1_5)]) kl kg)
       = Ok f2_5).
Proof.
  split; [|split; [|split; [|split]]].
  - intros V a b c d. by destruct a, b, c, d.
  - intros o. unfold loss, reconstruction_loss, kl_local, kl_global,
      _get_dict_sum. by rewrite !sum_values_float.
  - intros l r kl kg o read. subst o.
    unfold loss, reconstruction_loss, kl_local, kl_global. cbn [__init__
      dict_or_named _loss _reconstruction_loss _kl_local _kl_global].
    rewrite !sum_single, !float_add_zero_l.
    repeat (split; [done|]).
    intros x Hx. subst read. destruct x as [s|s| |s m e]; try done.
    + by destruct s.
    + by apply float_eqb_refl.
  - vm_compute. done.
  - intros l kl kg. vm_compute. done.
Qed.

End loss_claims.

Lemma SCVILoss_reads_sum_witness :
  float.eqb
    (match float.f0_1 with SpecFloat.S754_zero _ => float.zero | _ => float.f0_1 end)
    float.f0_1 = true.
Proof.
  destruct SCVILoss_reads_sum as (_ & _ & T & _).
  destruct (T float.f0_1 float.f0_1 float.f0_1 float.f0_1) as (_ & _ & _ & _ & T').
  apply T'. reflexivity.
Defined.

(** ** [AbstractVAE.forward] *)

Section forward_facts.
Import AbstractVAE.
Context `{Hooks}.

Lemma unpack_get_dict_if_none (param : pyobj) :
  unpack (_get_dict_if_none param) = Ok (override param).
Proof. by destruct param. Qed.




Ltac run_forward :=
  unfold forward, mbind, fw_bind, lift, invoke, mret, fw_ret;
  rewrite ?unpack_get_dict_if_none; cbn [fst snd app result_bind].

Ltac fw_step :=
  cbv beta iota zeta; cbn [fst snd app unpack result_bind].

Ltac hook_cases h :=
  let r := fresh "r" in let w := fresh "w" in let E := fresh "E" in
  destruct h as [[r|?] w] eqn:E; cbv beta iota zeta; cbn [fst snd app];
  [|by intros [=]].

Lemma forward_ok_iff tensors o1 o2 o3 o4 o5 (compute_loss : bool)
    (w w' : world) (r : pyobj) (tr : list call) :
  forward tensors o1 o2 o3 o4 o5 compute_loss (w, []) = (Ok r, (w', tr))
  ↔ ∃ dii io dgi go w1 w2 w3 w4,
      _get_inference_input [tensors] (override o1) w = (Ok (PyDict dii), w1)
      ∧ dii ##ₘ override o3
      ∧ inference [] (dii ∪ override o3) w1 = (Ok io, w2)
      ∧ _get_generative_input [tensors; io] (override o2) w2
        = (Ok (PyDict dgi), w3)
      ∧ dgi ##ₘ override o4
      ∧ generative [] (dgi ∪ override o4) w3 = (Ok go, w4)
      ∧ let calls :=
          [ {| call_stage := GetInferenceInput; call_args := [tensors];
               call_kwargs := override o1 |};
            {| call_stage := Inference; call_args := [];
               call_kwargs := dii ∪ override o3 |};
            {| call_stage := GetGenerativeInput; call_args := [tensors; io];
               call_kwargs := override o2 |};
            {| call_stage := Generative; call_args := [];
               call_kwargs := dgi ∪ override o4 |} ] in
        if compute_loss then
          ∃ losses,
            loss [tensors; io; go] (override o5) w4 = (Ok losses, w')
            ∧ r = PyTuple [io; go; losses]
            ∧ tr = calls ++ [ {| call_stage := Loss;
                                 call_args := [tensors; io; go];
                                 call_kwargs := override o5 |} ]
        else w' = w4 ∧ r = PyTuple [io; go] ∧ tr = calls.
Proof.
  split.
  - run_forward.
    hook_cases (_get_inference_input [tensors] (override o1) w).
    destruct r0 as [| | | | | | |dii]; cbn [unpack result_bind]; try by intros [=].
    unfold merge. destruct (decide (dii ##ₘ override o3)) as [Hd1|]; [|by intros [=]].
    hook_cases (inference [] (dii ∪ override o3) w0).
    hook_cases (_get_generative_input [tensors; r0] (override o2) w1).
    destruct r1 as [| | | | | | |dgi]; cbn [unpack result_bind]; try by intros [=].
    destruct (decide (dgi ##ₘ override o4)) as [Hd2|]; [|by intros [=]].
    hook_cases (generative [] (dgi ∪ override o4) w2).
    destruct compute_loss.
    + cbv beta. cbn [fst snd app].
      hook_cases (loss [tensors; r0; r1] (override o5) w3).
      intros [= <- <- <-]. exists dii, r0, dgi, r1, w0, w1, w2, w3.
      repeat (split; [done|]). by exists r2.
    + cbv beta. intros [= <- <- <-]. exists dii, r0, dgi, r1, w0, w1, w2, w3. done.
  - intros (dii & io & dgi & go & w1 & w2 & w3 & w4
            & E1 & Hd1 & E2 & E3 & Hd2 & E4 & Hrest).
    run_forward. unfold merge. rewrite E1. fw_step.
    rewrite decide_True by done. rewrite E2. fw_step. rewrite E3. fw_step.
    rewrite decide_True by done. rewrite E4. fw_step.
    destruct compute_loss; fw_step.
    + destruct Hrest as (losses & E5 & -> & ->). by rewrite E5.
    + by destruct Hrest as (-> & -> & ->).
Qed.

(** Without loss computation no invocation of the loss hook is recorded,
    whatever the other hooks do. *)
Lemma forward_no_loss_call tensors o1 o2 o3 o4 o5 (w : world) :
  Forall (λ c, call_stage c ≠ Loss)
         (forward tensors o1 o2 o3 o4 o5 false (w, [])).2.2.
Proof.
  run_forward. unfold merge.
  destruct (_get_inference_input [tensors] (override o1) w) as [[r0|?] w0];
    fw_step; [|by repeat constructor].
  destruct r0 as [| | | | | | |dii]; fw_step; try by repeat constructor.
  destruct (decide (dii ##ₘ override o3)); fw_step; [|by repeat constructor].
  destruct (inference [] (dii ∪ override o3) w0) as [[r1|?] w1];
    fw_step; [|by repeat constructor].
  destruct (_get_generative_input [tensors; r1] (override o2) w1) as [[r2|?] w2];
    fw_step; [|by repeat constructor].
  destruct r2 as [| | | | | | |dgi]; fw_step; try by repeat constructor.
  destruct (decide (dgi ##ₘ override o4)); fw_step; [|by repeat constructor].
  destruct (generative [] (dgi ∪ override o4) w2) as [[r3|?] w3];
    fw_step; by repeat constructor.
Qed.

End forward_facts.

Section forward_claims.
Import AbstractVAE.

Example forward_toy_without_loss :
  let out := forward (H := toy) (PyObject "batch") PyNone PyNone PyNone PyNone
               PyNone false ((), []) in
  out.1 = Ok (PyTuple [PyObject "qz"; PyObject "px"])
  ∧ call_stage <$> out.2.2
    = [GetInferenceInput; Inference; GetGenerativeInput; Generative].
Proof. vm_compute. done. Qed.

Example forward_toy_with_loss :
  let out := forward (H := toy_with_loss) (PyObject "batch") PyNone PyNone PyNone
               PyNone PyNone true ((), []) in
  out.1 = Ok (PyTuple [PyObject "qz"; PyObject "px"; PyObject "SCVILoss"])
  ∧ call_stage <$> out.2.2
    = [GetInferenceInput; Inference; GetGenerativeInput; Generative; Loss].
Proof. vm_compute. done. Qed.

Example forward_toy_list_override :
  let out := forward (H := toy_with_loss) (PyObject "batch")
               (PyList [PyInt 1]) (PyInt 3) (PyStr "n_samples") PyNone
               (PyBool true) true ((), []) in
  out.1 = Ok (PyTuple [PyObject "qz"; PyObject "px"; PyObject "SCVILoss"])
  ∧ call_kwargs <$> out.2.2 !! 0%nat = Some ∅.
Proof. vm_compute. done. Qed.

Example forward_toy_duplicate_keyword :
  (forward (H := toy) (PyObject "batch") PyNone PyNone
     (PyDict {[ "x" := PyInt 0 ]}) PyNone PyNone false ((), [])).1
  = Raise (TypeError "got multiple values for keyword argument").
Proof. vm_compute. done. Qed.

(** C8.  A call of [forward] returns exactly when the four hooks of the
    stages gather-inference-input, inference, gather-generative-input and
    generative return in this order (and, with [compute_loss], the loss hook
    after them), each on the arguments the previous stages produced: the
    batch and the override dictionary; the gathered inputs merged with the
    override dictionary; the batch, the inference outputs and the override
    dictionary; and so on.  The value returned is then the 3-tuple of
    inference outputs, generative outputs and the result of the loss hook
    when [compute_loss] is set, and the 2-tuple of inference and generative
    outputs otherwise.  Without [compute_loss] the loss hook is not invoked:
    no call of it is recorded whatever happens, and replacing the hook changes
    nothing. *)
Theorem forward_return_contract `{Hooks}
    (tensors o1 o2 o3 o4 o5 : pyobj) (w : world) :
  (∀ (compute_loss : bool) (r : pyobj) (w' : world) (tr : list call),
     forward tensors o1 o2 o3 o4 o5 compute_loss (w, []) = (Ok r, (w', tr))
     ↔ ∃ dii io dgi go w1 w2 w3 w4,
         _get_inference_input [tensors] (override o1) w = (Ok (PyDict dii), w1)
         ∧ dii ##ₘ override o3
         ∧ inference [] (dii ∪ override o3) w1 = (Ok io, w2)
         ∧ _get_generative_input [tensors; io] (override o2) w2
           = (Ok (PyDict dgi), w3)
         ∧ dgi ##ₘ override o4
         ∧ generative [] (dgi ∪ override o4) w3 = (Ok go, w4)
         ∧ let calls :=
             [ {| call_stage := GetInferenceInput; call_args := [tensors];
                  call_kwargs := override o1 |};
               {| call_stage := Inference; call_args := [];
                  call_kwargs := dii ∪ override o3 |};
               {| call_stage := GetGenerativeInput; call_args := [tensors; io];
                  call_kwargs := override o2 |};
               {| call_stage := Generative; call_args := [];
                  call_kwargs := dgi ∪ override o4 |} ] in
           if compute_loss then
             ∃ losses,
               loss [tensors; io; go] (override o5) w4 = (Ok losses, w')
               ∧ r = PyTuple [io; go; losses]
               ∧ tr = calls ++ [ {| call_stage := Loss;
                                    call_args := [tensors; io; go];
                                    call_kwargs := override o5 |} ]
           else w' = w4 ∧ r = PyTuple [io; go] ∧ tr = calls)
  ∧ Forall (λ c, call_stage c ≠ Loss)
           (forward tensors o1 o2 o3 o4 o5 false (w, [])).2.2
  ∧ (∀ loss', forward (H := with_loss H loss') tensors o1 o2 o3 o4 o5 false (w, [])
              = forward tensors o1 o2 o3 o4 o5 false (w, [])).
Proof.
  split; [|split].
  - intros compute_loss r w' tr. apply forward_ok_iff.
  - apply forward_no_loss_call.
  - intros loss'. reflexivity.
Qed.

Lemma forward_return_contract_witness :
  forward (H := toy_with_loss) (PyObject "batch") PyNone PyNone PyNone PyNone
    PyNone true ((), [])
  = (Ok (PyTuple [PyObject "qz"; PyObject "px"; PyObject "SCVILoss"]),
     ((),
      [ {| call_stage := GetInferenceInput; call_args := [PyObject "batch"];
           call_kwargs := ∅ |};
        {| call_stage := Inference; call_args := [];
           call_kwargs := {[ "x" := PyObject "batch" ]} ∪ ∅ |};
        {| call_stage := GetGenerativeInput;
           call_args := [PyObject "batch"; PyObject "qz"];
           call_kwargs := ∅ |};
        {| call_stage := Generative; call_args := [];
           call_kwargs := {[ "z" := PyObject "qz" ]} ∪ ∅ |};
        {| call_stage := Loss;
           call_args := [PyObject "batch"; PyObject "qz"; PyObject "px"];
           call_kwargs := ∅ |} ])).
Proof.
  apply (proj1 (forward_return_contract (H := toy_with_loss) (PyObject "batch")
                  PyNone PyNone PyNone PyNone PyNone ())).
  exists {[ "x" := PyObject "batch" ]}, (PyObject "qz"),
         {[ "z" := PyObject "qz" ]}, (PyObject "px"), (), (), (), ().
  split; [reflexivity|]. split; [apply map_disjoint_empty_r|].
  split; [reflexivity|]. split; [reflexivity|].
  split; [apply map_disjoint_empty_r|]. split; [reflexivity|].
  exists (PyObject "SCVILoss"). split; [reflexivity|]. split; reflexivity.
Defined.



End forward_claims.

(* ===================================================================== *)
(** * Part III: further properties of the two modules                     *)
(* ===================================================================== *)

(** ** [BatchSampler]: the shape of the batches *)

Lemma range_up_lookup (step stop : Z) (fuel : nat) (i : Z) (k : nat) (j : Z) :
  range_up fuel i stop step !! k = Some j →
  j = i + Z.of_nat k * step ∧ j < stop.
Proof.
  revert i k. induction fuel as [|fuel IH]; intros i k; cbn [range_up]; [done|].
  case_bool_decide as Hlt; [|done].
  destruct k as [|k]; cbn [lookup list_lookup].
  - intros [= <-]. lia.
  - intros Hk. apply IH in Hk. lia.
Qed.

Section batch_shape.
Import BatchSampler.

Variable s : BatchSampler.t.
Variable randperm : nat → list Z.
Hypothesis batch_size_pos : 1 ≤ batch_size s.
Hypothesis randperm_perm :
  shuffle s = true →
  randperm (length (indices s)) ≡ₚ np.arange (length (indices s)).

(** The [k]-th batch of a pass is the [k]-th slice of the visiting order. *)
Lemma iter_lookup (batches : list (list np.elt)) (k : nat)
    (batch : list np.elt) :
  __iter__ s randperm = Ok batches →
  batches !! k = Some batch →
  let idx := if shuffle s then randperm (length (indices s))
             else np.arange (length (indices s)) in
  Z.of_nat k * batch_size s < Z.of_nat (length (indices s))
  ∧ batch = np.at_ (indices s)
              <$> take (Z.to_nat (batch_size s))
                       (drop (k * Z.to_nat (batch_size s)) idx).
Proof using batch_size_pos randperm_perm.
  rewrite (iter_batches s randperm batch_size_pos randperm_perm).
  intros [= <-] Hk idx. rewrite list_lookup_fmap in Hk.
  destruct (range_up _ _ _ _ !! k) as [i|] eqn:Hi; [|done].
  cbn in Hk. injection Hk as <-.
  apply range_up_lookup in Hi as [-> Hlt]. split; [lia|].
  rewrite slice_forward by lia. fold idx. do 3 f_equal; lia.
Qed.

End batch_shape.

(** X1.  In a pass with batch size [b >= 1] the [k]-th batch has
    [min b (n - k*b)] elements: no batch is empty, none is longer than [b],
    and every batch that is not the last one has exactly [b]. *)
Theorem BatchSampler_batch_sizes (s : BatchSampler.t) (randperm : nat → list Z)
    (batches : list (list np.elt)) (k : nat) (batch : list np.elt) :
  let n := Z.of_nat (length (BatchSampler.indices s)) in
  let b := BatchSampler.batch_size s in
  1 ≤ b →
  (BatchSampler.shuffle s = true →
   randperm (length (BatchSampler.indices s))
   ≡ₚ np.arange (length (BatchSampler.indices s))) →
  BatchSampler.__iter__ s randperm = Ok batches →
  batches !! k = Some batch →
  Z.of_nat (length batch) = Z.min b (n - Z.of_nat k * b)
  ∧ 1 ≤ Z.of_nat (length batch) ≤ b
  ∧ ((S k < length batches)%nat → Z.of_nat (length batch) = b).
Proof.
  intros n b Hb Hperm Hiter Hk. subst n b.
  destruct (iter_lookup s randperm Hb Hperm batches k batch Hiter Hk)
    as [Hlt ->].
  rewrite length_fmap, length_take, length_drop.
  rewrite (idx_length s randperm Hperm).
  split; [nia|]. split; [nia|].
  intros Hnext.
  destruct (lookup_lt_is_Some_2 batches (S k) Hnext) as [batch' Hk'].
  destruct (iter_lookup s randperm Hb Hperm batches (S k) batch' Hiter Hk')
    as [Hlt' _].
  nia.
Qed.

Lemma BatchSampler_batch_sizes_witness :
  Z.of_nat (length (np.ints [50])) = Z.min 2 (Z.of_nat 5 - Z.of_nat 2 * 2)
  ∧ 1 ≤ Z.of_nat (length (np.ints [50])) ≤ 2
  ∧ ((3 < 3)%nat → Z.of_nat (length (np.ints [50])) = 2).
Proof.
  refine (BatchSampler_batch_sizes
            (BatchSampler.__init__ (np.ints [10; 20; 30; 40; 50]) 2 false)
            (λ _, [])
            [np.ints [10; 20]; np.ints [30; 40]; np.ints [50]] 2 (np.ints [50])
            _ _ _ _).
  - cbn. lia.
  - cbn. discriminate.
  - reflexivity.
  - reflexivity.
Defined.

(** X2.  Without shuffling, the [k]-th batch of a pass is the [k]-th run of
    [b] consecutive entries of the index array (fewer at the end). *)
Theorem BatchSampler_unshuffled_chunk (s : BatchSampler.t)
    (randperm : nat → list Z) (batches : list (list np.elt)) (k : nat)
    (batch : list np.elt) :
  1 ≤ BatchSampler.batch_size s →
  BatchSampler.shuffle s = false →
  BatchSampler.__iter__ s randperm = Ok batches →
  batches !! k = Some batch →
  batch = take (Z.to_nat (BatchSampler.batch_size s))
               (drop (k * Z.to_nat (BatchSampler.batch_size s))
                     (BatchSampler.indices s)).
Proof.
  intros Hb Hsh Hiter Hk.
  assert (BatchSampler.shuffle s = true →
          randperm (length (BatchSampler.indices s))
          ≡ₚ np.arange (length (BatchSampler.indices s))) as Hperm
    by (rewrite Hsh; discriminate).
  destruct (iter_lookup s randperm Hb Hperm batches k batch Hiter Hk)
    as [_ ->].
  rewrite Hsh, fmap_take, fmap_drop, np_at_arange. done.
Qed.

Lemma BatchSampler_unshuffled_chunk_witness :
  np.ints [30; 40]
  = take (Z.to_nat 2) (drop (1 * Z.to_nat 2) (np.ints [10; 20; 30; 40; 50])).
Proof.
  refine (BatchSampler_unshuffled_chunk
            (BatchSampler.__init__ (np.ints [10; 20; 30; 40; 50]) 2 false)
            (λ _, [])
            [np.ints [10; 20]; np.ints [30; 40]; np.ints [50]] 1
            (np.ints [30; 40]) _ _ _ _).
  - cbn. lia.
  - reflexivity.
  - reflexivity.
  - reflexivity.
Defined.

(** X3.  A batch size that is not positive is accepted by the constructor and
    shows at use: with batch size 0 a pass raises [ValueError] (from [range])
    and [__len__] raises [ZeroDivisionError]; with a negative batch size a
    pass yields no batch at all, whatever the indices, and [__len__] returns
    the floor quotient, which is not positive. *)
Theorem BatchSampler_nonpositive_batch_size (indices : list np.elt) (b : Z)
    (shuffle : bool) (randperm : nat → list Z) :
  let s := BatchSampler.__init__ indices b shuffle in
  (b = 0 →
   BatchSampler.__iter__ s randperm
   = Raise (ValueError "range() arg 3 must not be zero")
   ∧ BatchSampler.__len__ s
     = Raise (ZeroDivisionError "integer division or modulo by zero"))
  ∧ (b < 0 →
     BatchSampler.__iter__ s randperm = Ok []
     ∧ BatchSampler.__len__ s = Ok (Z.of_nat (length indices) `div` b)
     ∧ Z.of_nat (length indices) `div` b ≤ 0).
Proof.
  intros s. subst s. split.
  - intros ->. split; reflexivity.
  - intros Hb.
    unfold BatchSampler.__iter__, BatchSampler.__len__, range, floordiv.
    cbn [BatchSampler.__init__ BatchSampler.indices BatchSampler.batch_size
         BatchSampler.shuffle].
    rewrite !bool_decide_eq_false_2 by lia.
    split; [|split; [done|]].
    + replace (Z.to_nat (0 - _)) with 0%nat by lia. reflexivity.
    + pose proof (Z.div_mod (Z.of_nat (length indices)) b) as Hdm.
      pose proof (Z.mod_neg_bound (Z.of_nat (length indices)) b Hb). nia.
Qed.

Lemma BatchSampler_nonpositive_batch_size_witness :
  BatchSampler.__iter__ (BatchSampler.__init__ (np.ints [10; 20; 30]) (-2) true)
                        (λ _, [1; 2; 0])
  = Ok []
  ∧ BatchSampler.__len__ (BatchSampler.__init__ (np.ints [10; 20; 30]) (-2) true)
    = Ok (Z.of_nat (length (np.ints [10; 20; 30])) `div` (-2))
  ∧ Z.of_nat (length (np.ints [10; 20; 30])) `div` (-2) ≤ 0.
Proof.
  apply (BatchSampler_nonpositive_batch_size (np.ints [10; 20; 30]) (-2) true).
  reflexivity.
Defined.

(** X4.  A consumer that takes only [__len__()] batches from a pass receives
    [b * (n // b)] indices: it misses the [n mod b] of the final, shorter
    batch. *)
Theorem BatchSampler_len_batches_miss_remainder (s : BatchSampler.t)
    (randperm : nat → list Z) (batches : list (list np.elt)) (q : Z) :
  let n := Z.of_nat (length (BatchSampler.indices s)) in
  let b := BatchSampler.batch_size s in
  1 ≤ b →
  (BatchSampler.shuffle s = true →
   randperm (length (BatchSampler.indices s))
   ≡ₚ np.arange (length (BatchSampler.indices s))) →
  BatchSampler.__iter__ s randperm = Ok batches →
  BatchSampler.__len__ s = Ok q →
  Z.of_nat (sum_list (length <$> take (Z.to_nat q) batches)) = n - n `mod` b.
Proof.
  intros n b Hb Hperm Hiter Hlen.
  unfold BatchSampler.__len__, floordiv in Hlen.
  rewrite bool_decide_eq_false_2 in Hlen by lia. injection Hlen as <-.
  fold n b.
  pose proof (Z.div_mod n b) as Hdm. pose proof (Z.mod_pos_bound n b) as Hmod.
  assert (0 ≤ n `div` b) as Hq by (apply Z.div_pos; lia).
  assert (Z.of_nat (length batches) = (n + b - 1) `div` b) as Hcount.
  { rewrite (iter_batches s randperm Hb Hperm) in Hiter.
    injection Hiter as <-. by apply batches_count. }
  assert (n `div` b ≤ (n + b - 1) `div` b) as Hle
    by (apply Z.div_le_mono; lia).
  rewrite (sum_list_fmap_same (Z.to_nat b)).
  - rewrite length_take. nia.
  - apply Forall_lookup. intros k batch [Hk Hkq]%lookup_take_Some.
    destruct (iter_lookup s randperm Hb Hperm batches k batch Hiter Hk)
      as [_ ->].
    rewrite length_fmap, length_take, length_drop.
    rewrite (idx_length s randperm Hperm). fold n b. nia.
Qed.

Lemma BatchSampler_len_batches_miss_remainder_witness :
  Z.of_nat (sum_list (length <$> take (Z.to_nat 2)
              [np.ints [10; 20]; np.ints [30; 40]; np.ints [50]]))
  = Z.of_nat 5 - Z.of_nat 5 `mod` 2.
Proof.
  refine (BatchSampler_len_batches_miss_remainder
            (BatchSampler.__init__ (np.ints [10; 20; 30; 40; 50]) 2 false)
            (λ _, [])
            [np.ints [10; 20]; np.ints [30; 40]; np.ints [50]] 2 _ _ _ _).
  - cbn. lia.
  - cbn. discriminate.
  - reflexivity.
  - reflexivity.
Defined.

(** ** [ScviDataLoader]: the registration check in detail *)

Lemma for_each_app {A} (l1 l2 : list A) (body : A → result ()) :
  dict.for_each (l1 ++ l2) body
  = (_ ← dict.for_each l1 body; dict.for_each l2 body).
Proof.
  induction l1 as [|x l1 IH]; [done|].
  cbn [app dict.for_each]. destruct (body x) as [[]|e]; [exact IH|done].
Qed.

Section loader_checks.
Import ScviDataLoader.

(** X5.  When the container has the ["_scvi"] entry but that entry has no
    ["data_registry"], construction with a field specification that is not
    empty (the default one in particular) raises [KeyError] for
    ["data_registry"], not the two errors of the checks, and leaves the store
    alone. *)
Theorem ScviDataLoader_missing_data_registry `{Externals}
    (adata : AnnData) (shuffle : bool) (indices0 : option index_arg)
    (use_cuda0 : bool) (batch_size : Z) (kwl : loc)
    (daa : option FieldSpec) (h : store)
    (meta : gmap string (gmap string registry_entry)) :
  uns adata !! "_scvi" = Some meta →
  meta !! "data_registry" = None →
  default default_data_and_attributes daa ≠ [] →
  __init__ adata shuffle indices0 use_cuda0 batch_size kwl daa h
  = (Raise (KeyError "data_registry"), h).
Proof.
  intros Hmeta Hnone Hspec.
  unfold __init__, mbind at 1 2, io_bind, lift.
  rewrite bool_decide_eq_false_2.
  2:{ intros Hn. apply Hn, elem_of_dom. by rewrite Hmeta. }
  assert (∀ spec : FieldSpec, spec ≠ [] →
          dict.for_each spec.*1 (λ key,
            scvi ← dict.getitem (uns adata) "_scvi";
            registry ← dict.getitem scvi "data_registry";
            if bool_decide (key ∉ dom registry)
            then Raise (MissingFieldError key) else Ok ())
          = Raise (KeyError "data_registry")) as Hrun.
  { intros [|[k dt] spec] Hne; [done|].
    cbn [fmap list_fmap fst dict.for_each].
    assert ((scvi ← dict.getitem (uns adata) "_scvi";
             registry ← dict.getitem scvi "data_registry";
             if bool_decide (k ∉ dom registry)
             then Raise (MissingFieldError k) else Ok ())
            = Raise (KeyError "data_registry")) as ->; [|done].
    unfold dict.getitem. rewrite Hmeta. cbn [mbind result_bind].
    by rewrite Hnone. }
  destruct daa as [spec|]; cbn [default from_option id] in Hspec;
    by rewrite Hrun.
Qed.

Lemma ScviDataLoader_missing_data_registry_witness :
  __init__ (H := recording)
    {| uns := {[ "_scvi" := ∅ ]}; n_obs := 4 |} false None true 128 1%positive
    None Fixtures.caller_store
  = (Raise (KeyError "data_registry"), Fixtures.caller_store).
Proof.
  apply (ScviDataLoader_missing_data_registry (H := recording)
           {| uns := {[ "_scvi" := ∅ ]}; n_obs := 4 |} false None true 128
           1%positive None Fixtures.caller_store ∅).
  - reflexivity.
  - reflexivity.
  - discriminate.
Defined.

(** X6.  The missing-field error names the first key, in the order of the
    field specification, that the registry lacks; keys after it are not
    looked at. *)
Theorem ScviDataLoader_first_missing_field `{Externals}
    (adata : AnnData) (shuffle : bool) (indices0 : option index_arg)
    (use_cuda0 : bool) (batch_size : Z) (kwl : loc)
    (daa : option FieldSpec) (h : store)
    (meta : gmap string (gmap string registry_entry))
    (reg : gmap string registry_entry)
    (before after : list string) (k : string) :
  uns adata !! "_scvi" = Some meta →
  meta !! "data_registry" = Some reg →
  (default default_data_and_attributes daa).*1 = before ++ k :: after →
  Forall (λ k', is_Some (reg !! k')) before →
  reg !! k = None →
  __init__ adata shuffle indices0 use_cuda0 batch_size kwl daa h
  = (Raise (MissingFieldError k), h).
Proof.
  intros Hmeta Hreg Hkeys Hbefore Hk.
  unfold __init__, mbind at 1 2, io_bind, lift.
  rewrite bool_decide_eq_false_2.
  2:{ intros Hn. apply Hn, elem_of_dom. by rewrite Hmeta. }
  assert (dict.for_each (default default_data_and_attributes daa).*1 (λ key,
            scvi ← dict.getitem (uns adata) "_scvi";
            registry ← dict.getitem scvi "data_registry";
            if bool_decide (key ∉ dom registry)
            then Raise (MissingFieldError key) else Ok ())
          = Raise (MissingFieldError k)) as Hrun.
  { rewrite Hkeys, for_each_app.
    rewrite (check_all_registered adata meta reg before Hmeta Hreg Hbefore).
    cbn [mbind result_bind dict.for_each].
    rewrite (check_unfold adata meta reg k Hmeta Hreg).
    rewrite bool_decide_eq_true_2; [done|]. by apply not_elem_of_dom. }
  destruct daa as [spec|]; cbn [default from_option id] in Hrun;
    by rewrite Hrun.
Qed.

Lemma ScviDataLoader_first_missing_field_witness :
  __init__ (H := recording) Fixtures.adata_setup false None true 128 1%positive
    (Some [("X", float32); ("cat_covs", int64); ("cont_covs", float32)])
    Fixtures.caller_store
  = (Raise (MissingFieldError "cat_covs"), Fixtures.caller_store).
Proof.
  apply (ScviDataLoader_first_missing_field (H := recording)
           Fixtures.adata_setup false None true 128 1%positive
           (Some [("X", float32); ("cat_covs", int64); ("cont_covs", float32)])
           Fixtures.caller_store
           {[ "data_registry" := Fixtures.registry6 ]} Fixtures.registry6
           ["X"] ["cont_covs"] "cat_covs").
  - reflexivity.
  - reflexivity.
  - reflexivity.
  - repeat constructor. vm_compute. eauto.
  - reflexivity.
Defined.

End loader_checks.

(** ** [ScviDataLoader] and its sampler *)

(** One pass of a sampler, as far as the loader needs it. *)
Lemma iter_visits (s : BatchSampler.t) (randperm : nat → list Z) :
  1 ≤ BatchSampler.batch_size s →
  (BatchSampler.shuffle s = true →
   randperm (length (BatchSampler.indices s))
   ≡ₚ np.arange (length (BatchSampler.indices s))) →
  ∃ batches,
    BatchSampler.__iter__ s randperm = Ok batches
    ∧ mjoin batches ≡ₚ BatchSampler.indices s
    ∧ (BatchSampler.shuffle s = false → mjoin batches = BatchSampler.indices s).
Proof.
  intros Hb Hperm. eexists. split; [by apply iter_batches|].
  rewrite (batches_join s randperm Hb Hperm). split.
  - rewrite (idx_perm s randperm Hperm). by rewrite np_at_arange.
  - intros ->. apply np_at_arange.
Qed.

Section loader_sampler.
Import ScviDataLoader.
Context `{Externals}.

(** X7.  A loader built without explicit indices and without shuffling
    visits, on every pass of its sampler, the rows [0 .. len(dataset)-1] in
    ascending order. *)
Theorem ScviDataLoader_sequential_pass
    (adata : AnnData) (use_cuda0 : bool) (batch_size : Z) (kwl : loc)
    (daa : option FieldSpec) (h h' : store) (ld : t)
    (randperm : nat → list Z) :
  1 ≤ batch_size →
  __init__ adata false None use_cuda0 batch_size kwl daa h = (Ok ld, h') →
  ∃ batches,
    BatchSampler.__iter__ (make_sampler (sampler_kwargs ld)) randperm
    = Ok batches
    ∧ mjoin batches = np.ints (np.arange (ScviDataset_len (dataset ld))).
Proof.
  intros Hb Hinit.
  destruct (init_ok_inv _ _ _ _ _ _ _ _ _ _ Hinit)
    as (_ & _ & _ & _ & _ & _ & _ & Hsk & _).
  destruct (iter_visits (make_sampler (sampler_kwargs ld)) randperm)
    as (batches & Hiter & _ & Hord).
  - by rewrite Hsk.
  - by rewrite Hsk.
  - exists batches. split; [exact Hiter|].
    rewrite Hord by (by rewrite Hsk). by rewrite Hsk.
Qed.

(** X8.  A loader built from a mask that is a numpy array of dtype bool
    visits, on every pass of its sampler, exactly the rows at which the mask
    is true, each of them once.  (A mask given as a Python list or as a
    tensor is not converted, so this does not hold of it.) *)
Theorem ScviDataLoader_mask_pass
    (adata : AnnData) (shuffle : bool) (mask : list bool) (use_cuda0 : bool)
    (batch_size : Z) (kwl : loc) (daa : option FieldSpec) (h h' : store)
    (ld : t) (randperm : nat → list Z) :
  1 ≤ batch_size →
  randperm (length (true_positions mask))
  ≡ₚ np.arange (length (true_positions mask)) →
  __init__ adata shuffle (Some (BoolArray mask)) use_cuda0 batch_size kwl daa h
  = (Ok ld, h') →
  ∃ batches : list (list np.elt),
    BatchSampler.__iter__ (make_sampler (sampler_kwargs ld)) randperm
    = Ok batches
    ∧ mjoin batches ≡ₚ np.ints (true_positions mask)
    ∧ NoDup (mjoin batches)
    ∧ ∀ e : np.elt,
        e ∈ mjoin batches
        ↔ ∃ z, e = np.Int z ∧ 0 ≤ z ∧ mask !! Z.to_nat z = Some true.
Proof.
  intros Hb Hperm Hinit.
  destruct (init_ok_inv _ _ _ _ _ _ _ _ _ _ Hinit)
    as (_ & _ & _ & _ & _ & _ & _ & Hsk & _).
  assert (BatchSampler.indices (make_sampler (sampler_kwargs ld))
          = np.ints (true_positions mask)) as Hidx.
  { rewrite Hsk. cbn. by rewrite np_where_true_positions. }
  destruct (iter_visits (make_sampler (sampler_kwargs ld)) randperm)
    as (batches & Hiter & Hvis & _).
  - by rewrite Hsk.
  - intros _. by rewrite Hidx, length_fmap.
  - exists batches. split; [exact Hiter|]. rewrite Hidx in Hvis.
    split; [exact Hvis|]. split.
    + rewrite Hvis. apply (NoDup_fmap_2 _). unfold true_positions.
      apply (NoDup_fmap_2 _). apply NoDup_filter, NoDup_seq.
    + intros e. rewrite Hvis, list_elem_of_fmap. split.
      * intros (z & -> & Hz%elem_of_true_positions). by exists z.
      * intros (z & -> & Hz). exists z. split; [done|].
        by apply elem_of_true_positions.
Qed.

(** X9.  The constructor does not look at the batch size: a loader with
    batch size 0 is built like any other, and it is the first pass of its
    sampler that raises (and [__len__] with it). *)
Theorem ScviDataLoader_zero_batch_size
    (adata : AnnData) (shuffle : bool) (indices0 : option index_arg)
    (use_cuda0 : bool) (kwl : loc) (daa : option FieldSpec) (h h' : store)
    (ld : t) (randperm : nat → list Z) :
  __init__ adata shuffle indices0 use_cuda0 0 kwl daa h = (Ok ld, h') →
  BatchSampler.__iter__ (make_sampler (sampler_kwargs ld)) randperm
  = Raise (ValueError "range() arg 3 must not be zero")
  ∧ BatchSampler.__len__ (make_sampler (sampler_kwargs ld))
    = Raise (ZeroDivisionError "integer division or modulo by zero").
Proof.
  intros Hinit.
  destruct (init_ok_inv _ _ _ _ _ _ _ _ _ _ Hinit)
    as (_ & _ & _ & _ & _ & _ & _ & Hsk & _).
  rewrite Hsk. split; reflexivity.
Qed.

(** X10.  Two loaders built one after the other from the same keyword
    dictionary (the shared default dictionary is such a case) do not see each
    other: each keeps a dictionary of its own holding its own sampler, and the
    caller's dictionary is still what it was after both constructions. *)
Theorem ScviDataLoader_shared_kwargs
    (adata1 adata2 : AnnData) (shuffle1 shuffle2 : bool)
    (indices1 indices2 : option index_arg) (use_cuda1 use_cuda2 : bool)
    (batch_size1 batch_size2 : Z) (kwl : loc) (daa1 daa2 : option FieldSpec)
    (h h1 h2 : store) (d : gmap string kwarg) (ld1 ld2 : t) :
  h !! kwl = Some d →
  __init__ adata1 shuffle1 indices1 use_cuda1 batch_size1 kwl daa1 h
  = (Ok ld1, h1) →
  __init__ adata2 shuffle2 indices2 use_cuda2 batch_size2 kwl daa2 h1
  = (Ok ld2, h2) →
  data_loader_kwargs ld1 ≠ data_loader_kwargs ld2
  ∧ h2 !! kwl = Some d
  ∧ (h2 !! data_loader_kwargs ld1) ≫= (λ kw, kw !! "sampler")
    = Some (KwSampler (make_sampler (sampler_kwargs ld1)))
  ∧ (h2 !! data_loader_kwargs ld2) ≫= (λ kw, kw !! "sampler")
    = Some (KwSampler (make_sampler (sampler_kwargs ld2)))
  ∧ ∀ k, k ≠ "sampler" → k ≠ "batch_size" →
         (h2 !! data_loader_kwargs ld2) ≫= (λ kw, kw !! k) = d !! k.
Proof.
  intros Hd Hinit1 Hinit2.
  destruct (init_ok_inv _ _ _ _ _ _ _ _ _ _ Hinit1)
    as (_ & _ & _ & _ & _ & _ & _ & _ & Hl1 & _ & Hh1).
  destruct (init_ok_inv _ _ _ _ _ _ _ _ _ _ Hinit2)
    as (_ & _ & _ & _ & _ & _ & _ & _ & Hl2 & _ & Hh2).
  assert (data_loader_kwargs ld1 ≠ kwl) as Hne1.
  { rewrite Hl1. intros Heq.
    assert (kwl ∈ dom h) as Hin by (apply elem_of_dom; eauto).
    rewrite <- Heq in Hin. by apply is_fresh in Hin. }
  assert (h1 !! kwl = Some d) as Hd1.
  { rewrite Hh1, <- Hl1. by rewrite lookup_insert_ne. }
  assert (data_loader_kwargs ld2 ≠ kwl) as Hne2.
  { rewrite Hl2. intros Heq.
    assert (kwl ∈ dom h1) as Hin by (apply elem_of_dom; eauto).
    rewrite <- Heq in Hin. by apply is_fresh in Hin. }
  assert (data_loader_kwargs ld1 ≠ data_loader_kwargs ld2) as Hne12.
  { rewrite Hl2. intros Heq.
    assert (data_loader_kwargs ld1 ∈ dom h1) as Hin.
    { apply elem_of_dom. rewrite Hh1, <- Hl1, lookup_insert_eq. eauto. }
    rewrite Heq in Hin. by apply is_fresh in Hin. }
  split; [exact Hne12|].
  rewrite Hh2, <- Hl2. rewrite Hd1. cbn [default from_option id].
  split; [by rewrite lookup_insert_ne|]. split; [|split].
  - rewrite lookup_insert_ne by done.
    rewrite Hh1, <- Hl1, lookup_insert_eq. cbn [mbind option_bind].
    rewrite lookup_insert_ne by done. by rewrite lookup_insert_eq.
  - rewrite lookup_insert_eq. cbn [mbind option_bind].
    rewrite lookup_insert_ne by done. by rewrite lookup_insert_eq.
  - intros k Hk1 Hk2. rewrite lookup_insert_eq. cbn [mbind option_bind].
    by rewrite !lookup_insert_ne.
Qed.

End loader_sampler.

(** The recording collaborators accept a call on the prepared container from
    any store and any keyword dictionary. *)
Lemma recording_run_in (h : ScviDataLoader.store) (kwl : ScviDataLoader.loc)
    (shuffle : bool) (indices0 : option ScviDataLoader.index_arg)
    (use_cuda0 : bool) (batch_size : Z) :
  ∃ ld h',
    ScviDataLoader.__init__ (H := ScviDataLoader.recording)
      Fixtures.adata_setup shuffle indices0 use_cuda0 batch_size kwl None h
    = (Ok ld, h').
Proof.
  edestruct (init_ok_intro (H := ScviDataLoader.recording) Fixtures.adata_setup
               shuffle indices0 use_cuda0 batch_size kwl None h
               {[ "data_registry" := Fixtures.registry6 ]} Fixtures.registry6
               (Fixtures.adata_setup, None)) as (ld & E & _);
    [reflexivity|reflexivity|exact registry6_defaults|reflexivity|reflexivity
    |eauto].
Defined.

Section loader_sampler_witnesses.
Import ScviDataLoader.

Lemma ScviDataLoader_sequential_pass_witness :
  ∃ ld h' batches,
    __init__ (H := recording) Fixtures.adata_setup false None true 3 1%positive
      None Fixtures.caller_store = (Ok ld, h')
    ∧ BatchSampler.__iter__ (make_sampler (sampler_kwargs ld)) (λ _, [])
      = Ok batches
    ∧ mjoin batches = np.ints (np.arange (ScviDataset_len (dataset ld))).
Proof.
  destruct (recording_run_in Fixtures.caller_store 1%positive false None true 3)
    as (ld & h' & E).
  destruct (ScviDataLoader_sequential_pass (H := recording) Fixtures.adata_setup
              true 3 1%positive None Fixtures.caller_store h' ld (λ _, []))
    as (batches & Hiter & Hjoin); [lia|exact E|].
  exists ld, h', batches. split; [exact E|]. split; [exact Hiter|exact Hjoin].
Defined.

Lemma ScviDataLoader_mask_pass_witness :
  ∃ ld h' batches,
    __init__ (H := recording) Fixtures.adata_setup false
      (Some (BoolArray [true; false; true; true])) true 2 1%positive None
      Fixtures.caller_store = (Ok ld, h')
    ∧ BatchSampler.__iter__ (make_sampler (sampler_kwargs ld)) (λ _, [2; 0; 1])
      = Ok batches
    ∧ mjoin batches ≡ₚ np.ints (true_positions [true; false; true; true]).
Proof.
  destruct (recording_run_in Fixtures.caller_store 1%positive false
              (Some (BoolArray [true; false; true; true])) true 2)
    as (ld & h' & E).
  destruct (ScviDataLoader_mask_pass (H := recording) Fixtures.adata_setup
              false [true; false; true; true] true 2 1%positive None
              Fixtures.caller_store h' ld (λ _, [2; 0; 1]))
    as (batches & Hiter & Hvis & _);
    [lia|exact (Permutation_app_comm [2] [0; 1])|exact E|].
  exists ld, h', batches. split; [exact E|]. split; [exact Hiter|exact Hvis].
Defined.

Lemma ScviDataLoader_zero_batch_size_witness :
  ∃ ld h',
    __init__ (H := recording) Fixtures.adata_setup true None true 0 1%positive
      None Fixtures.caller_store = (Ok ld, h')
    ∧ BatchSampler.__iter__ (make_sampler (sampler_kwargs ld)) (λ _, [])
      = Raise (ValueError "range() arg 3 must not be zero")
    ∧ BatchSampler.__len__ (make_sampler (sampler_kwargs ld))
      = Raise (ZeroDivisionError "integer division or modulo by zero").
Proof.
  destruct (recording_run_in Fixtures.caller_store 1%positive true None true 0)
    as (ld & h' & E).
  exists ld, h'. split; [exact E|].
  exact (ScviDataLoader_zero_batch_size (H := recording) _ _ _ _ _ _ _ _ _
           (λ _, []) E).
Defined.

Lemma ScviDataLoader_shared_kwargs_witness :
  ∃ ld1 h1 ld2 h2,
    __init__ (H := recording) Fixtures.adata_setup false None true 2 1%positive
      None Fixtures.caller_store = (Ok ld1, h1)
    ∧ __init__ (H := recording) Fixtures.adata_setup true None true 3 1%positive
        None h1 = (Ok ld2, h2)
    ∧ data_loader_kwargs ld1 ≠ data_loader_kwargs ld2
    ∧ h2 !! 1%positive = Some Fixtures.caller_kwargs
    ∧ (h2 !! data_loader_kwargs ld2) ≫= (λ kw, kw !! "sampler")
      = Some (KwSampler (make_sampler (sampler_kwargs ld2))).
Proof.
  destruct (recording_run_in Fixtures.caller_store 1%positive false None true 2)
    as (ld1 & h1 & E1).
  destruct (recording_run_in h1 1%positive true None true 3)
    as (ld2 & h2 & E2).
  destruct (ScviDataLoader_shared_kwargs (H := recording)
              Fixtures.adata_setup Fixtures.adata_setup false true None None
              true true 2 3 1%positive None None Fixtures.caller_store h1 h2
              Fixtures.caller_kwargs ld1 ld2)
    as (Hne & Hd & _ & Hs2 & _); [reflexivity|exact E1|exact E2|].
  exists ld1, h1, ld2, h2.
  split; [exact E1|]. split; [exact E2|]. split; [exact Hne|].
  split; [exact Hd|exact Hs2].
Defined.

End loader_sampler_witnesses.

(** ** [SCVILoss]: terms that are not numbers *)

Lemma sum_values_all_numbers (acc : float.t) (xs : list float.t) :
  SCVILoss.sum_values (Some acc) (Some <$> xs)
  = Ok (Some (foldl float.add acc xs)).
Proof.
  revert acc. induction xs as [|x xs IH]; intros acc; [done|].
  cbn. apply IH.
Qed.

Lemma sum_values_some_none (acc : float.t) (values : list (option float.t)) :
  None ∈ values →
  SCVILoss.sum_values (Some acc) values
  = Raise (TypeError "unsupported operand type(s) for +").
Proof.
  revert acc. induction values as [|v values IH]; intros acc Hin.
  { by apply not_elem_of_nil in Hin. }
  destruct v as [x|]; [|done].
  apply elem_of_cons in Hin as [|Hin]; [done|].
  cbn. by apply IH.
Qed.

(** X11.  Terms that are not numbers are accepted by the constructor and
    stored; it is the read of their category that fails.  With terms that are
    floats or [None], a read raises [TypeError] as soon as one term of the
    category is [None], and returns the sum of the terms otherwise; the other
    categories are not affected. *)
Theorem SCVILoss_read_non_numeric
    (d : list (string * option float.t))
    (r kl kg : SCVILoss.arg (option float.t)) :
  let o := SCVILoss.__init__ (SCVILoss.Dict d) r kl kg in
  SCVILoss._loss o = d
  ∧ (None ∈ d.*2 →
     SCVILoss.loss o = Raise (TypeError "unsupported operand type(s) for +"))
  ∧ (∀ xs, d.*2 = Some <$> xs →
     SCVILoss.loss o = Ok (Some (foldl float.add float.zero xs)))
  ∧ SCVILoss.reconstruction_loss o
    = SCVILoss.reconstruction_loss
        (SCVILoss.__init__ (SCVILoss.Bare (Some float.zero)) r kl kg).
Proof.
  intros o. subst o. split; [done|]. split; [|split; [|done]].
  - intros Hin. by apply sum_values_some_none.
  - intros xs Hxs. unfold SCVILoss.loss, SCVILoss._get_dict_sum.
    cbn [SCVILoss.__init__ SCVILoss._loss SCVILoss.dict_or_named].
    rewrite Hxs. apply sum_values_all_numbers.
Qed.

Lemma SCVILoss_read_non_numeric_witness :
  SCVILoss.loss
    (SCVILoss.__init__
       (SCVILoss.Dict [("a", Some float.f1_0); ("b", None); ("c", Some float.f1_5)])
       (SCVILoss.Bare (Some float.f3_0)) (SCVILoss.Bare None)
       (SCVILoss.Bare None))
  = Raise (TypeError "unsupported operand type(s) for +").
Proof.
  apply (SCVILoss_read_non_numeric
           [("a", Some float.f1_0); ("b", None); ("c", Some float.f1_5)]).
  apply list_elem_of_In. right. left. reflexivity.
Defined.

(** ** [AbstractVAE.forward]: failures *)

Section forward_failures.
Import AbstractVAE.
Context `{Hooks}.

Ltac run_forward :=
  unfold forward, mbind, fw_bind, lift, invoke, mret, fw_ret, merge;
  rewrite ?unpack_get_dict_if_none; cbn [fst snd app result_bind].

Ltac fw_step :=
  cbv beta iota zeta; cbn [fst snd app unpack result_bind fmap list_fmap
                           call_stage].



(** X13.  An exception raised by a hook is the exception of the call: when
    the inference hook raises, [forward] raises the same exception, the
    module is left in the state that hook left it in, and neither the
    generative stages nor the loss hook are invoked. *)
Theorem forward_inference_raises
    (tensors o1 o2 o3 o4 o5 : pyobj) (compute_loss : bool) (w w1 w2 : world)
    (dii : kwargs) (e : exn) :
  _get_inference_input [tensors] (override o1) w = (Ok (PyDict dii), w1) →
  dii ##ₘ override o3 →
  inference [] (dii ∪ override o3) w1 = (Raise e, w2) →
  forward tensors o1 o2 o3 o4 o5 compute_loss (w, [])
  = (Raise e,
     (w2, [ {| call_stage := GetInferenceInput; call_args := [tensors];
               call_kwargs := override o1 |};
            {| call_stage := Inference; call_args := [];
               call_kwargs := dii ∪ override o3 |} ])).
Proof.
  intros E1 Hd E2. run_forward. rewrite E1. fw_step.
  rewrite decide_True by done. by rewrite E2.
Qed.


(** X15.  When a name is given both by the gathered inference inputs and by
    the [inference_kwargs] override, [forward] raises [TypeError] before the
    inference hook is invoked: neither dictionary takes precedence. *)
Theorem forward_duplicate_keyword
    (tensors o1 o2 o3 o4 o5 : pyobj) (compute_loss : bool) (w w1 : world)
    (dii : kwargs) (k : string) (x y : pyobj) :
  _get_inference_input [tensors] (override o1) w = (Ok (PyDict dii), w1) →
  dii !! k = Some x →
  override o3 !! k = Some y →
  forward tensors o1 o2 o3 o4 o5 compute_loss (w, [])
  = (Raise (TypeError "got multiple values for keyword argument"),
     (w1, [ {| call_stage := GetInferenceInput; call_args := [tensors];
               call_kwargs := override o1 |} ])).
Proof.
  intros E1 Hx Hy. run_forward. rewrite E1. fw_step.
  rewrite decide_False; [done|].
  intros Hd. by apply (map_disjoint_spec dii (override o3)) with (i := k) (x := x) (y := y) in Hd.
Qed.

End forward_failures.

Section forward_failure_witnesses.
Import AbstractVAE.

Lemma forward_inference_raises_witness :
  forward (H := toy_failing_inference) (PyObject "batch") PyNone PyNone PyNone
    PyNone PyNone true ((), [])
  = (Raise (ValueError "nan in the latent"),
     ((), [ {| call_stage := GetInferenceInput;
               call_args := [PyObject "batch"]; call_kwargs := override PyNone |};
            {| call_stage := Inference; call_args := [];
               call_kwargs := {[ "x" := PyObject "batch" ]} ∪ override PyNone |} ])).
Proof.
  apply (forward_inference_raises (H := toy_failing_inference) (PyObject "batch")
           PyNone PyNone PyNone PyNone PyNone true () () ()
           {[ "x" := PyObject "batch" ]}).
  - reflexivity.
  - apply map_disjoint_empty_r.
  - reflexivity.
Defined.


Lemma forward_duplicate_keyword_witness :
  forward (H := toy) (PyObject "batch") PyNone PyNone
    (PyDict {[ "x" := PyInt 0 ]}) PyNone PyNone false ((), [])
  = (Raise (TypeError "got multiple values for keyword argument"),
     ((), [ {| call_stage := GetInferenceInput;
               call_args := [PyObject "batch"];
               call_kwargs := override PyNone |} ])).
Proof.
  apply (forward_duplicate_keyword (H := toy) (PyObject "batch")
           PyNone PyNone (PyDict {[ "x" := PyInt 0 ]}) PyNone PyNone false
           () () {[ "x" := PyObject "batch" ]} "x" (PyObject "batch") (PyInt 0)).
  - reflexivity.
  - reflexivity.
  - reflexivity.
Defined.

End forward_failure_witnesses.
